(** * PDF compliance scanner ([PDF_Analyzer/pdf_checker.py])

    A shallow embedding of the four functions of [pdf_checker.py]
    ([is_valid_pdf], [check_formatting], [detect_sections_dynamic] and
    [analyze_pdf]) together with the small part of the Python run time they
    rely on, followed by the properties of the scanner.

    Conventions of the embedding:
    - a Python [str] is a [string]; its characters are code points 0..255
      (Latin-1) and the [str] methods used by the scanner ([strip], [lower],
      [isupper], [split], [replace], [in]) are given on those code points;
    - a Python [float] is a binary64 [float] of the kernel, so the
      subtraction, [abs] and comparison of the margin test round as they do
      in Python;
    - a [dict] is an association list in insertion order; assigning to a key
      that is present replaces the value where it stands;
    - the limits are a mapping from section names to integers, or [None];
    - exceptions and the record of which decoder was called are carried by
      the monad [py];
    - what the three decoders (PyPDF2, pdfplumber, PyMuPDF) make of the file
      at a path is the input of the embedding, a [pdf_file]. *)

From Stdlib Require Import ZArith NArith List String Ascii Bool Lia Floats.
From Stdlib Require Import Sorted.
Import ListNotations.

Local Open Scope string_scope.
Local Open Scope list_scope.

(** ** Exceptions and effects *)

Inductive exception : Type :=
| Exception (name : string).

Inductive backend : Type := PyPDF2 | Pdfplumber | PyMuPDF.

(** [Opened b]: the decoder [b] was called on the file (whether or not it
    then raised). *)
Inductive event : Type :=
| Opened (b : backend).

Inductive outcome (A : Type) : Type :=
| Return (a : A)
| Raise (e : exception).

Arguments Return {A} a.
Arguments Raise {A} e.

(** A computation extends the log of events and ends in a value or in an
    exception. *)
Definition py (A : Type) : Type := list event -> outcome A * list event.

Definition ret {A : Type} (a : A) : py A :=
  fun log => (Return a, log).

Definition bind {A B : Type} (c : py A) (k : A -> py B) : py B :=
  fun log =>
    match c log with
    | (Return a, log') => k a log'
    | (Raise e, log') => (Raise e, log')
    end.

Definition tell (ev : event) : py unit :=
  fun log => (Return tt, log ++ [ev]).

Definition lift {A : Type} (o : outcome A) : py A :=
  fun log => (o, log).

(** [try: c  except: h] with a bare [except], which catches everything. *)
Definition try_except {A : Type} (c : py A) (h : py A) : py A :=
  fun log =>
    match c log with
    | (Return a, log') => (Return a, log')
    | (Raise _, log') => h log'
    end.

Notation "x <- c ;; k" := (bind c (fun x => k))
  (at level 61, c at next level, right associativity).
Notation "c ;;; k" := (bind c (fun _ => k))
  (at level 61, right associativity).

(** ** Insertion-ordered dictionaries *)

Section Dict.
Context {V : Type}.

Definition dict : Type := list (string * V).

Fixpoint dict_get (k : string) (d : dict) : option V :=
  match d with
  | [] => None
  | (k', v) :: d' => if String.eqb k k' then Some v else dict_get k d'
  end.

Definition dict_mem (k : string) (d : dict) : bool :=
  match dict_get k d with Some _ => true | None => false end.

(** [d[k] = v] *)
Fixpoint dict_set (k : string) (v : V) (d : dict) : dict :=
  match d with
  | [] => [(k, v)]
  | (k', v') :: d' =>
      if String.eqb k k' then (k, v) :: d' else (k', v') :: dict_set k v d'
  end.

Definition dict_keys (d : dict) : list string := map fst d.

(** [d.update(other)] *)
Definition dict_update (d other : dict) : dict :=
  fold_left (fun acc kv => dict_set (fst kv) (snd kv) acc) other d.

(** Truth value of a dictionary: non-empty. *)
Definition dict_truthy (d : dict) : bool :=
  match d with [] => false | _ :: _ => true end.

(** [list(d.keys())[-1]] of a non-empty dictionary. *)
Definition dict_last_key (d : dict) : string := last (dict_keys d) "".
End Dict.

Arguments dict V : clear implicits.

(** [d[k].append(i)] on a [defaultdict(list)]. *)
Definition dict_append (k : string) (i : nat) (d : dict (list nat))
  : dict (list nat) :=
  match dict_get k d with
  | Some l => dict_set k (l ++ [i]) d
  | None => dict_set k [i] d
  end.

(** The values the two mappings of a report hold: page counts and status
    strings.  A report itself is a [dict (dict pyval)]. *)
Inductive pyval : Type :=
| PInt (n : Z)
| PStr (s : string).

(** ** Strings *)

Definition code (c : ascii) : N := N_of_ascii c.

Definition between (lo hi : N) (c : ascii) : bool :=
  (lo <=? code c)%N && (code c <=? hi)%N.

(** [str.isspace] of one character, which is also the class [\s]. *)
Definition is_space (c : ascii) : bool :=
  between 9 13 c || between 28 32 c || (code c =? 133)%N || (code c =? 160)%N.

Definition is_upper_char (c : ascii) : bool :=
  between 65 90 c || between 192 214 c || between 216 222 c.

Definition is_lower_char (c : ascii) : bool :=
  between 97 122 c || (code c =? 170)%N || (code c =? 181)%N
  || (code c =? 186)%N || between 223 246 c || between 248 255 c.

Definition lower_char (c : ascii) : ascii :=
  if is_upper_char c then ascii_of_N (code c + 32) else c.

Fixpoint lower (s : string) : string :=
  match s with
  | EmptyString => EmptyString
  | String c s' => String (lower_char c) (lower s')
  end.

Fixpoint string_forall (p : ascii -> bool) (s : string) : bool :=
  match s with
  | EmptyString => true
  | String c s' => p c && string_forall p s'
  end.

Fixpoint string_exists (p : ascii -> bool) (s : string) : bool :=
  match s with
  | EmptyString => false
  | String c s' => p c || string_exists p s'
  end.

(** [s.isupper()]: some cased character, and no lowercase one. *)
Definition isupper (s : string) : bool :=
  string_exists is_upper_char s && negb (string_exists is_lower_char s).

Fixpoint lstrip_with (p : ascii -> bool) (s : string) : string :=
  match s with
  | EmptyString => EmptyString
  | String c s' => if p c then lstrip_with p s' else s
  end.

Fixpoint rstrip_with (p : ascii -> bool) (s : string) : string :=
  match s with
  | EmptyString => EmptyString
  | String c s' =>
      match rstrip_with p s' with
      | EmptyString => if p c then EmptyString else String c EmptyString
      | r => String c r
      end
  end.

(** [s.strip()] *)
Definition strip (s : string) : string :=
  rstrip_with is_space (lstrip_with is_space s).

Fixpoint string_filter (p : ascii -> bool) (s : string) : string :=
  match s with
  | EmptyString => EmptyString
  | String c s' =>
      if p c then String c (string_filter p s') else string_filter p s'
  end.

(** [s.replace(a, b)] for single characters. *)
Fixpoint replace_char (a b : ascii) (s : string) : string :=
  match s with
  | EmptyString => EmptyString
  | String c s' =>
      String (if Ascii.eqb c a then b else c) (replace_char a b s')
  end.

(** [s.split(sep)] for a single character. *)
Fixpoint split (sep : ascii) (s : string) : list string :=
  match s with
  | EmptyString => [EmptyString]
  | String c s' =>
      if Ascii.eqb c sep then EmptyString :: split sep s'
      else match split sep s' with
           | [] => [String c EmptyString]
           | h :: t => String c h :: t
           end
  end.

(** [needle in hay] *)
Fixpoint contains (needle hay : string) : bool :=
  match hay with
  | EmptyString => String.prefix needle EmptyString
  | String _ hay' => String.prefix needle hay || contains needle hay'
  end.

Definition newline : ascii := ascii_of_N 10.

(** ** Floats *)

(** Nearest integer to [n / d], ties to even ([0 < d]). *)
Definition round_half_even (n d : Z) : Z :=
  let q := (n / d)%Z in
  match (2 * (n mod d) ?= d)%Z with
  | Lt => q
  | Gt => (q + 1)%Z
  | Eq => if Z.even q then q else (q + 1)%Z
  end.

(** [floor (log2 (k / 10))] for [0 < k]. *)
Definition log2_tenths (k : Z) : Z :=
  let t := (Z.log2 k - 4)%Z in
  let reached (t : Z) : bool :=
    if (0 <=? t)%Z then (10 * 2 ^ t <=? k)%Z else (10 <=? k * 2 ^ (- t))%Z in
  if reached (t + 1)%Z then (t + 1)%Z else t.

(** The binary64 value nearest to [k / 10], with sign [s] ([0 <= k]). *)
Definition nearest_tenths (s : bool) (k : Z) : float :=
  if (k =? 0)%Z then SF2Prim (S754_zero s)
  else
    let e := (log2_tenths k - 52)%Z in
    let m := if (0 <=? e)%Z then round_half_even k (10 * 2 ^ e)
             else round_half_even (k * 2 ^ (- e)) 10 in
    let '(m, e) := if (m =? 2 ^ 53)%Z then (2 ^ 52, e + 1)%Z else (m, e) in
    SF2Prim (S754_finite s (Z.to_pos m) e).

(** [round(x, 1)] on a float: the exact value of [x] is rounded to the
    nearest tenth, ties to even, and the tenth is converted back to the
    nearest float; infinities, NaN and integers are returned as they are. *)
Definition round1 (x : float) : float :=
  match Prim2SF x with
  | S754_finite s m e =>
      if (0 <=? e)%Z then x
      else nearest_tenths s (round_half_even (10 * Z.pos m) (2 ^ (- e)))
  | _ => x
  end.

(** ** What the decoders report *)

(** One entry of pdfplumber's [page.chars]: a mapping in which [fontname]
    and [size] may be absent. *)
Record pchar : Type := {
  fontname : option string;
  size : option float
}.

(** pdfplumber's view of a page.  Reading [chars] decodes the content
    stream and may raise. *)
Record plumber_page : Type := {
  chars : outcome (list pchar);
  width : float;
  height : float;
  bbox : float * float * float * float
}.

(** The file at a path, as each decoder sees it: whether [PdfReader(path)]
    parses it, the pages [pdfplumber.open(path)] gives, and the text
    [page.get_text("text")] of each page of [fitz.open(path)].  A [Raise]
    in the last field stands for [fitz.open], the iteration over the pages
    or [get_text] raising. *)
Record pdf_file : Type := {
  pypdf2_reader : outcome unit;
  pdfplumber_pages : outcome (list plumber_page);
  fitz_texts : outcome (list string)
}.

(** ** Sets, as [set()] and [set.add] build them *)

Definition set_mem {A : Type} (eqb : A -> A -> bool) (x : A) (s : list A)
  : bool :=
  existsb (eqb x) s.

Definition set_add {A : Type} (eqb : A -> A -> bool) (x : A) (s : list A)
  : list A :=
  if set_mem eqb x s then s else s ++ [x].

(** [sorted(set(l))] on page indices. *)
Fixpoint insert_sorted (n : nat) (l : list nat) : list nat :=
  match l with
  | [] => [n]
  | m :: l' => if (n <=? m)%nat then n :: l else m :: insert_sorted n l'
  end.

Definition sorted (l : list nat) : list nat := fold_right insert_sorted [] l.

Definition set_of (l : list nat) : list nat := nodup Nat.eq_dec l.

(** [enumerate(l)] *)
Definition enumerate {A : Type} (l : list A) : list (nat * A) :=
  combine (seq 0 (List.length l)) l.

(** ** Format Validator *)

Definition is_valid_pdf (f : pdf_file) : py bool :=
  try_except
    (tell (Opened PyPDF2) ;;;
     lift (pypdf2_reader f) ;;;
     ret true)
    (ret false).

(** ** Typography Checker *)

Definition pass : pyval := PStr "pass".
Definition fail : pyval := PStr "fail".

(** [char.get('fontname', '')] *)
Definition char_fontname (c : pchar) : string :=
  match fontname c with Some s => s | None => "" end.

(** [float(char.get('size', 0))] *)
Definition char_size (c : pchar) : float :=
  match size c with Some x => x | None => 0%float end.

(** [pdf.pages[0]] *)
Definition first_page (pages : list plumber_page) : outcome plumber_page :=
  match pages with
  | page :: _ => Return page
  | [] => Raise (Exception "IndexError")
  end.

Definition collect_fonts (cs : list pchar) : list string :=
  fold_left (fun fonts c => set_add String.eqb (char_fontname c) fonts) cs [].

Definition collect_sizes (cs : list pchar) : list float :=
  fold_left (fun sizes c => set_add PrimFloat.eqb (round1 (char_size c)) sizes)
            cs [].

(** [[left, right, top, bottom]] *)
Definition margins (page : plumber_page) : list float :=
  let '(c0, c1, c2, c3) := bbox page in
  let left := c0 in
  let right := (width page - c2)%float in
  let top := (height page - c3)%float in
  let bottom := c1 in
  [left; right; top; bottom].

Definition one_inch : float := 72%float.
Definition tolerance : float := 5%float.

Definition within_tolerance (m : float) : bool :=
  (abs (m - one_inch) <=? tolerance)%float.

Definition times_font (f : string) : bool :=
  contains "Times" f || contains "TimesNewRoman" f.

Definition formatting_result : dict pyval :=
  [("font_size", pass); ("font_family", pass); ("margin", pass)].

(** The body of the [try] of [check_formatting]. *)
Definition inspect_first_page (f : pdf_file) : py (dict pyval) :=
  let result := formatting_result in
  tell (Opened Pdfplumber) ;;;
  pages <- lift (pdfplumber_pages f) ;;
  page <- lift (first_page pages) ;;
  cs <- lift (chars page) ;;
  let fonts := collect_fonts cs in
  let sizes := collect_sizes cs in
  let result :=
    if negb (set_mem PrimFloat.eqb 12%float sizes)
    then dict_set "font_size" fail result else result in
  let result :=
    if negb (existsb times_font fonts)
    then dict_set "font_family" fail result else result in
  let result :=
    if negb (forallb within_tolerance (margins page))
    then dict_set "margin" fail result else result in
  ret result.

Definition check_formatting (f : pdf_file) : py (dict pyval) :=
  try_except
    (inspect_first_page f)
    (ret (map (fun kv => (fst kv, fail)) formatting_result)).

(** ** Section Detector *)

(** The class [[A-Za-z\s\-]]. *)
Definition heading_class (c : ascii) : bool :=
  between 65 90 c || between 97 122 c || is_space c || (code c =? 45)%N.

(** [[A-Za-z\s\-]+:$] on the rest of the line; [seen] tells whether a
    character of the class was already consumed. *)
Fixpoint heading_tail (seen : bool) (s : string) : bool :=
  match s with
  | EmptyString => false
  | String c EmptyString => seen && (code c =? 58)%N
  | String c s' => heading_class c && heading_tail true s'
  end.

(** [re.match(r"^[A-Z][A-Za-z\s\-]+:$", s)] on a stripped line [s] (which has
    no line break in it). *)
Definition heading_regex (s : string) : bool :=
  match s with
  | EmptyString => false
  | String c s' => between 65 90 c && heading_tail false s'
  end.

(** The two heading heuristics on a line. *)
Definition is_heading (line : string) : bool :=
  heading_regex (strip line) || isupper line.

(** [re.sub(r"[^a-z ]", "", s)] *)
Definition lower_or_blank (c : ascii) : bool :=
  between 97 122 c || (code c =? 32)%N.

Definition sub_non_letters (s : string) : string :=
  string_filter lower_or_blank s.

(** The name a heading line registers:
    [re.sub(r"[^a-z ]", "", line.strip().lower()).strip()]. *)
Definition normalized_name (line : string) : string :=
  let line_clean := lower (strip line) in
  strip (sub_non_letters line_clean).

(** [section_starts] and [section_pages]. *)
Definition scan_state : Type := dict nat * dict (list nat).

(** The body of the loop over the lines of page [i]. *)
Definition scan_line (i : nat) (st : scan_state) (line : string)
  : scan_state :=
  let '(section_starts, section_pages) := st in
  if is_heading line then
    let section_name := normalized_name line in
    if negb (section_name =? "") && negb (dict_mem section_name section_starts)
    then (dict_set section_name i section_starts,
          dict_append section_name i section_pages)
    else st
  else if dict_truthy section_starts then
    let last_section := dict_last_key section_starts in
    (section_starts, dict_append last_section i section_pages)
  else st.

Definition scan_page (st : scan_state) (ip : nat * string) : scan_state :=
  fold_left (scan_line (fst ip)) (split newline (snd ip)) st.

Definition scan_document (doc : list string) : scan_state :=
  fold_left scan_page (enumerate doc) ([], []).

(** [section_pages[k] = sorted(set(section_pages[k]))] for every [k]. *)
Definition distinct_pages (section_pages : dict (list nat))
  : dict (list nat) :=
  map (fun kv => (fst kv, sorted (set_of (snd kv)))) section_pages.

Definition status_key_of (sec : string) : string :=
  replace_char " " "_" sec.

Definition page_key_of (sec : string) : string :=
  replace_char " " "_" sec ++ "_pages".

(** [max_page_limits[sec]] when [max_page_limits and sec in max_page_limits]
    holds. *)
Definition limit_of (max_page_limits : option (dict Z)) (sec : string)
  : option Z :=
  match max_page_limits with
  | Some limits => if dict_truthy limits then dict_get sec limits else None
  | None => None
  end.

Definition section_status (max_page_limits : option (dict Z)) (sec : string)
  (pages : list nat) : string :=
  match limit_of max_page_limits sec with
  | Some limit =>
      if (Z.of_nat (List.length pages) <=? limit)%Z then "pass" else "fail"
  | None => "n/a"
  end.

(** The body of the loop that builds the result. *)
Definition emit_section (max_page_limits : option (dict Z))
  (result : dict pyval) (entry : string * list nat) : dict pyval :=
  let '(sec, pages) := entry in
  let page_key := page_key_of sec in
  let status_key := status_key_of sec in
  let result := dict_set page_key (PInt (Z.of_nat (List.length pages))) result in
  dict_set status_key (PStr (section_status max_page_limits sec pages)) result.

Definition build_result (max_page_limits : option (dict Z))
  (section_pages : dict (list nat)) : dict pyval :=
  fold_left (emit_section max_page_limits) section_pages [].

(** The sections of a document with their sorted, distinct pages, in
    discovery order. *)
Definition detected_sections (doc : list string) : dict (list nat) :=
  distinct_pages (snd (scan_document doc)).

Definition detect_sections_dynamic (f : pdf_file)
  (max_page_limits : option (dict Z)) : py (dict pyval) :=
  tell (Opened PyMuPDF) ;;;
  doc <- lift (fitz_texts f) ;;
  ret (build_result max_page_limits (detected_sections doc)).

(** ** Compliance Aggregator *)

(** [report[k]] changed in place by [g]. *)
Definition dict_modify {V : Type} (k : string) (g : V -> V) (d : dict V)
  : dict V :=
  match dict_get k d with
  | Some v => dict_set k (g v) d
  | None => d
  end.

Definition empty_report : dict (dict pyval) :=
  [("format", []); ("content", [])].

Definition analyze_pdf (f : pdf_file) (max_page_limits : option (dict Z))
  : py (dict (dict pyval)) :=
  let report := empty_report in
  valid <- is_valid_pdf f ;;
  if negb valid then
    ret (dict_modify "format" (dict_set "file_type" fail) report)
  else
    let report := dict_modify "format" (dict_set "file_type" pass) report in
    formatting <- check_formatting f ;;
    let report :=
      dict_modify "format" (fun d => dict_update d formatting) report in
    content <- detect_sections_dynamic f max_page_limits ;;
    let report :=
      dict_modify "content" (fun d => dict_update d content) report in
    ret report.

(** ** The summary of the application ([PDF_Analyzer/app.py]) *)

(** The values the summary walks through: integers, strings and nested
    mappings. *)
#[local] Unset Elimination Schemes.
Inductive pyobj : Type :=
| OInt (n : Z)
| OStr (s : string)
| ODict (items : list (string * pyobj)).
#[local] Set Elimination Schemes.

Definition obj_of_pyval (v : pyval) : pyobj :=
  match v with PInt n => OInt n | PStr s => OStr s end.

Definition obj_of_dict (d : dict pyval) : pyobj :=
  ODict (map (fun kv => (fst kv, obj_of_pyval (snd kv))) d).

(** A report as the application receives it from [analyze_pdf]. *)
Definition obj_of_report (report : dict (dict pyval)) : pyobj :=
  ODict (map (fun kv => (fst kv, obj_of_dict (snd kv))) report).

(** [value == s] for a string [s]. *)
Definition is_str (s : string) (value : pyobj) : bool :=
  match value with OStr t => String.eqb t s | _ => false end.

Definition is_cased (c : ascii) : bool := is_upper_char c || is_lower_char c.

(** The upper case of a character, which is also its title case.  (The
    three Latin-1 characters whose upper case is not Latin-1, code points
    181, 223 and 255, are left as they are; the keys of a report are made
    of [a]..[z] and the underscore.) *)
Definition upper_char (c : ascii) : ascii :=
  if between 97 122 c || between 224 246 c || between 248 254 c
  then ascii_of_N (code c - 32) else c.

(** [s.title()]: a character after a cased one is lowered, any other is
    put in title case. *)
Fixpoint title_from (previous_is_cased : bool) (s : string) : string :=
  match s with
  | EmptyString => EmptyString
  | String c s' =>
      String (if previous_is_cased then lower_char c else upper_char c)
             (title_from (is_cased c) s')
  end.

Definition title (s : string) : string := title_from false s.

(** [key.replace('_', ' ').title()] *)
Definition display_name (key : string) : string :=
  title (replace_char "_" " " key).

Fixpoint count_failures (data : pyobj) : list string :=
  match data with
  | ODict items =>
      (fix over_items (items : list (string * pyobj)) : list string :=
         match items with
         | [] => []
         | (key, value) :: items' =>
             (if is_str "fail" value then [display_name key]
              else match value with
                   | ODict _ => count_failures value
                   | _ => []
                   end)
             ++ over_items items'
         end) items
  | _ => []
  end.

Fixpoint count_passes (data : pyobj) : Z :=
  match data with
  | ODict items =>
      (fix over_items (items : list (string * pyobj)) : Z :=
         match items with
         | [] => 0%Z
         | (key, value) :: items' =>
             ((if is_str "pass" value then 1
               else match value with
                    | ODict _ => count_passes value
                    | _ => 0
                    end)
              + over_items items')%Z
         end) items
  | _ => 0%Z
  end.

(** [len(l)] *)
Definition len {A : Type} (l : list A) : Z := Z.of_nat (List.length l).

Definition issues_found (result : pyobj) : Z := len (count_failures result).

Definition total_checks (result : pyobj) : Z :=
  (issues_found result + count_passes result)%Z.

(** The display names of the failing entries of [result[section]], when it
    is there and is a mapping. *)
Definition section_fails (section : string) (result : pyobj) : list string :=
  match result with
  | ODict items =>
      match dict_get section items with
      | Some (ODict entries) =>
          flat_map (fun kv => if is_str "fail" (snd kv)
                              then [display_name (fst kv)] else [])
                   entries
      | _ => []
      end
  | _ => []
  end.

Definition format_fails (result : pyobj) : list string :=
  section_fails "format" result.

Definition content_fails (result : pyobj) : list string :=
  section_fails "content" result.

(** The number behind "... and N more issues", computed when there is at
    least one issue and shown when it is positive. *)
Definition remaining_issues (result : pyobj) : Z :=
  (len (count_failures result)
   - len (firstn 5 (format_fails result))
   - len (firstn 5 (content_fails result)))%Z.

(** ** Notions used to state the properties *)

(** The lines of a document in scan order, each with the index of its
    page. *)
Definition doc_lines (doc : list string) : list (nat * string) :=
  flat_map (fun ip => map (pair (fst ip)) (split newline (snd ip)))
           (enumerate doc).

Definition scan_lines (ls : list (nat * string)) (st : scan_state)
  : scan_state :=
  fold_left (fun st il => scan_line (fst il) st (snd il)) ls st.

(** A line registers a section when it matches a heading heuristic and its
    name is non-empty and new. *)
Definition registers (names : list string) (line : string) : bool :=
  is_heading line
  && negb (normalized_name line =? "")
  && negb (existsb (String.eqb (normalized_name line)) names).

(** The section names in the order in which the lines register them. *)
Definition discovered (ls : list (nat * string)) : list string :=
  fold_left (fun names il =>
               if registers names (snd il)
               then names ++ [normalized_name (snd il)] else names)
            ls [].

(** The pages attributed so far to a section. *)
Definition pages_of (sec : string) (st : scan_state) : list nat :=
  match dict_get sec (snd st) with Some l => l | None => [] end.

(** A page none of whose lines matches a heading heuristic. *)
Definition is_body_page (text : string) : bool :=
  forallb (fun line => negb (is_heading line)) (split newline text).

(** Two results agree at an entry when the keys are the same and the values
    are the same or are both status strings. *)
Definition same_up_to_status (a b : string * pyval) : Prop :=
  fst a = fst b /\
  (snd a = snd b \/ exists s1 s2, snd a = PStr s1 /\ snd b = PStr s2).

(** [pass] when the test succeeded, [fail] otherwise. *)
Definition verdict (ok : bool) : pyval := if ok then pass else fail.

(** A heading-like line whose name is empty or already registered. *)
Definition spent_heading (names : list string) (line : string) : Prop :=
  is_heading line = true /\
  (normalized_name line = "" \/ In (normalized_name line) names).

(** ** The normalized name as the specification words it *)

(** Runs of blanks inside a name collapsed to one blank. *)
Fixpoint collapse_blanks (s : string) : string :=
  match s with
  | EmptyString => EmptyString
  | String c s' =>
      match s' with
      | String c' _ =>
          if (code c =? 32)%N && (code c' =? 32)%N then collapse_blanks s'
          else String c (collapse_blanks s')
      | EmptyString => String c EmptyString
      end
  end.

(** "The line lowercased, with every character other than letters and
    spaces stripped, trimmed, and with internal whitespace collapsed." *)
Definition spec_normalized_name (line : string) : string :=
  collapse_blanks (strip (sub_non_letters (lower line))).

(** The two keys the specification gives the section of a heading line. *)
Definition spec_section_keys (line : string) : list string :=
  [(spec_normalized_name line ++ "_pages")%string; spec_normalized_name line].

(** ** Sample inputs *)

(** The decoders' view of a file PyPDF2 accepts, pdfplumber finds no page in
    and PyMuPDF extracts the page texts [doc] from. *)
Definition file_of_texts (doc : list string) : pdf_file :=
  {| pypdf2_reader := Return tt;
     pdfplumber_pages := Return [];
     fitz_texts := Return doc |}.

(** The document of the worked example: a page with the line "SUMMARY", two
    body pages, a page with the line "SKILLS:", one body page. *)
Definition example_doc (body1 body2 body3 : string) : list string :=
  ["SUMMARY"; body1; body2; "SKILLS:"; body3].

Definition example_limits : option (dict Z) :=
  Some [("summary", 2%Z); ("skills", 1%Z)].

(** The content mapping the worked example states. *)
Definition example_claimed_content : dict pyval :=
  [("summary_pages", PInt 3); ("summary", PStr "fail");
   ("skills_pages", PInt 1); ("skills", PStr "pass")].

(** Two headings: one of two words, one with a digit between two words. *)
Definition headings_doc : list string := ["WORK EXPERIENCE"; "PAGE 1 OF 2"].

(** A file PyPDF2 parses and the other two decoders refuse, as a
    password-protected PDF is. *)
Definition protected_file : pdf_file :=
  {| pypdf2_reader := Return tt;
     pdfplumber_pages := Raise (Exception "PDFPasswordIncorrect");
     fitz_texts := Raise (Exception "ValueError") |}.

(** A file PyPDF2 cannot parse. *)
Definition corrupted_file : pdf_file :=
  {| pypdf2_reader := Raise (Exception "PdfReadError");
     pdfplumber_pages := Raise (Exception "PDFSyntaxError");
     fitz_texts := Return ["SUMMARY"] |}.

(** A US Letter page with characters [cs] and margins of 72, 70, 77 and 70
    points (left, right, top, bottom). *)
Definition letter_page (cs : list pchar) : plumber_page :=
  {| chars := Return cs;
     width := 612%float;
     height := 792%float;
     bbox := (72, 70, 542, 715)%float |}.

(** A character of a subset-tagged Times font at 12 points. *)
Definition times_run : pchar :=
  {| fontname := Some "ABCDEF+TimesNewRomanPSMT"; size := Some 12%float |}.

(** A file PyPDF2 accepts, with pdfplumber's answer [pages]. *)
Definition file_of_pages (pages : outcome (list plumber_page)) : pdf_file :=
  {| pypdf2_reader := Return tt;
     pdfplumber_pages := pages;
     fitz_texts := Return [] |}.

(** Three headings, the third repeating the first, and then a body page. *)
Definition interleaved_doc : list string :=
  ["SUMMARY"; "SKILLS:"; "SUMMARY"; "body"].

(** A section of two pages under a limit of two. *)
Definition boundary_doc : list string := ["SUMMARY"; "body"].


(** Two lines of text on one page. *)
Definition two_lines (a b : string) : string :=
  (a ++ String newline b)%string.

(** A page on which "SUMMARY" is followed by "SUMMARY PAGES": the status key
    of the second section is the page-count key of the first. *)
Definition colliding_doc : list string :=
  [two_lines "SUMMARY" "SUMMARY PAGES"].

(** A US Letter page whose left margin is 66 points. *)
Definition narrow_page : plumber_page :=
  {| chars := Return [times_run];
     width := 612%float;
     height := 792%float;
     bbox := (66, 72, 540, 720)%float |}.

(** A character whose mapping has neither [fontname] nor [size]. *)
Definition bare_char : pchar := {| fontname := None; size := None |}.

(** A US Letter page whose [bbox] is the page itself. *)
Definition full_page : plumber_page :=
  {| chars := Return [times_run];
     width := 612%float;
     height := 792%float;
     bbox := (0, 0, 612, 792)%float |}.

(** A character of another font and size. *)
Definition arial_run : pchar :=
  {| fontname := Some "Arial"; size := Some 10%float |}.

(** The lines of the pages [doc], the first of which has index [a]. *)
Definition lines_from (a : nat) (doc : list string) : list (nat * string) :=
  flat_map (fun ip => map (pair (fst ip)) (split newline (snd ip)))
           (combine (seq a (List.length doc)) doc).

(** Page indices that do not decrease along a list of lines. *)
Definition in_page_order (ls : list (nat * string)) : Prop :=
  StronglySorted (fun x y => (fst x <= fst y)%nat) ls.

(** What the scan has established after the lines [ls]: every registered
    section starts on the page of the first heading line with its name, and
    every page attributed to a section is a page of [ls] at or after the
    section's start, which is itself attributed. *)
Definition scan_invariant (ls : list (nat * string)) (st : scan_state)
  : Prop :=
  (forall sec p,
      dict_get sec (fst st) = Some p ->
      (exists line, In (p, line) ls /\ is_heading line = true /\
                    normalized_name line = sec) /\
      (forall i line, In (i, line) ls -> is_heading line = true ->
                      normalized_name line = sec -> (p <= i)%nat)) /\
  (forall sec l,
      In (sec, l) (snd st) ->
      exists p, dict_get sec (fst st) = Some p /\ In p l /\
                forall j, In j l -> (p <= j)%nat /\ In j (map fst ls)).

(** Two pages of running text, without a heading. *)
Definition plain_doc : list string :=
  [two_lines "Dear reader," "this report has no headings."; "The end."].

(** The limits without the entries whose key has a character other than
    the letters [a]..[z] and the blank. *)
Definition applicable_limits (limits : dict Z) : dict Z :=
  filter (fun kv => string_forall lower_or_blank (fst kv)) limits.

(** The characters of the keys of a content mapping. *)
Definition key_char (c : ascii) : bool :=
  between 97 122 c || (code c =? 95)%N.

(** The "Report Template" preset of the application
    ([PDF_Analyzer/app.py], lines 112-118). *)
Definition report_template : dict Z :=
  [("executive_summary", 2%Z); ("methodology", 3%Z); ("results", 5%Z);
   ("appendix", 10%Z)].

(** A report of three pages headed "EXECUTIVE SUMMARY". *)
Definition report_doc : list string :=
  ["EXECUTIVE SUMMARY"; "first page"; "second page"].

(** Eight sections on one page each, every one over a limit of zero. *)
Definition eight_sections_doc : list string :=
  ["ALPHA"; "BETA"; "GAMMA"; "DELTA"; "EPSILON"; "ZETA"; "ETA"; "THETA"].

Definition zero_limits : option (dict Z) :=
  Some [("alpha", 0%Z); ("beta", 0%Z); ("gamma", 0%Z); ("delta", 0%Z);
        ("epsilon", 0%Z); ("zeta", 0%Z); ("eta", 0%Z); ("theta", 0%Z)].

(** The display names of the failing entries of a mapping of a report, and
    the number of its passing entries. *)
Definition fail_names (d : dict pyval) : list string :=
  flat_map (fun kv => if is_str "fail" (obj_of_pyval (snd kv))
                      then [display_name (fst kv)] else [])
           d.

Definition pass_count (d : dict pyval) : Z :=
  fold_right (fun kv n => ((if is_str "pass" (obj_of_pyval (snd kv))
                            then 1 else 0) + n)%Z)
             0%Z d.




(** * Properties *)

(** ** The run-time model on sample values *)

Example strip_samples :
  strip "  Work - Experience: " = "Work - Experience:" /\
  strip (String (ascii_of_N 9) "A b" ++ String (ascii_of_N 160) " ") = "A b" /\
  strip "   " = "".
Proof. repeat split. Qed.

Example split_samples :
  split newline (two_lines "a" (two_lines "" "b")) = ["a"; ""; "b"] /\
  split newline (two_lines "SUMMARY" "") = ["SUMMARY"; ""] /\
  split newline "" = [""].
Proof. repeat split. Qed.

Example isupper_samples :
  isupper "SUMMARY" = true /\ isupper "PAGE 1 OF 2" = true /\
  isupper "Skills:" = false /\ isupper "123" = false /\ isupper "" = false.
Proof. repeat split. Qed.

Example heading_regex_samples :
  heading_regex "Skills:" = true /\ heading_regex "Work - Experience:" = true /\
  heading_regex "A:" = false /\ heading_regex "skills:" = false /\
  heading_regex "Note: this" = false /\ heading_regex "Step 1:" = false.
Proof. repeat split. Qed.

Example normalized_name_samples :
  normalized_name "SKILLS:" = "skills" /\
  normalized_name "Work Experience:" = "work experience" /\
  normalized_name "  Work - Experience: " = "work  experience" /\
  normalized_name "2024" = "".
Proof. repeat split. Qed.

Example contains_samples :
  contains "Times" "ABCDEF+TimesNewRomanPSMT" = true /\
  contains "Times" "Time-Roman" = false /\
  contains "Times" "" = false.
Proof. repeat split. Qed.

(** [round(x, 1)] on 12.04, 11.95 (the float just below it), 12.25 (a tie)
    and 0.25 (a tie). *)
Example round1_samples :
  round1 0x1.8147ae147ae14p+3 = 12%float /\
  round1 0x1.7e66666666666p+3 = 0x1.7cccccccccccdp+3%float /\
  round1 0x1.88p+3 = 0x1.8666666666666p+3%float /\
  round1 0x1p-2 = 0x1.999999999999ap-3%float.
Proof. repeat split. Qed.

Example narrow_margin_fails :
  fst (check_formatting (file_of_pages (Return [narrow_page])) []) =
  Return [("font_size", PStr "pass"); ("font_family", PStr "pass");
          ("margin", PStr "fail")].
Proof. reflexivity. Qed.

(** ** The gate of the aggregator *)

(** What the validator answers depends on the PyPDF2 parse alone. *)
Lemma is_valid_pdf_run (f : pdf_file) (log : list event) :
  is_valid_pdf f log =
  (Return (match pypdf2_reader f with Return _ => true | Raise _ => false end),
   log ++ [Opened PyPDF2]).
Proof.
  unfold is_valid_pdf, try_except, bind, tell, lift, ret.
  destruct (pypdf2_reader f); reflexivity.
Qed.

(** C1: when the Format Validator rejects the file, [analyze_pdf] returns
    exactly [{"format": {"file_type": "fail"}, "content": {}}], and the only
    decoder that was opened is the validator's: neither the Typography
    Checker nor the Section Detector ran. *)
Theorem analyze_pdf_rejected (f : pdf_file) (limits : option (dict Z))
  (log : list event) :
  fst (is_valid_pdf f log) = Return false ->
  analyze_pdf f limits log =
  (Return [("format", [("file_type", PStr "fail")]); ("content", [])],
   log ++ [Opened PyPDF2]).
Proof.
  intros Hrej. unfold analyze_pdf, bind.
  rewrite is_valid_pdf_run in *. simpl in Hrej.
  destruct (pypdf2_reader f); [discriminate Hrej | reflexivity].
Qed.

Lemma analyze_pdf_rejected_witness :
  analyze_pdf corrupted_file (Some [("summary", 2%Z)]) [] =
  (Return [("format", [("file_type", PStr "fail")]); ("content", [])],
   [Opened PyPDF2]).
Proof.
  apply (analyze_pdf_rejected corrupted_file (Some [("summary", 2%Z)]) []).
  reflexivity.
Defined.

(** ** Typography Checker *)

(** *** Equality of floats *)

Lemma SFeqb_true (a b : spec_float) :
  SFeqb a b = true ->
  (exists s1 s2, a = S754_zero s1 /\ b = S754_zero s2) \/ a = b.
Proof.
  unfold SFeqb, SFcompare.
  destruct a as [sa| sa | | sa ma ea], b as [sb | sb | | sb mb eb];
    try discriminate; try (destruct sa; discriminate);
    try (destruct sb; discriminate).
  - intros _. left. eauto.
  - destruct sa, sb; try discriminate; intros _; right; reflexivity.
  - destruct sa, sb; try discriminate;
      destruct (Z.compare ea eb) eqn:He; try discriminate;
      apply Z.compare_eq in He; subst eb;
      fold (Pos.compare ma mb);
      destruct (Pos.compare ma mb) eqn:Hm; try discriminate;
      apply Pos.compare_eq in Hm; subst mb; intros _; right; reflexivity.
Qed.

Lemma SFeqb_zero_l (s1 s2 : bool) (c : spec_float) :
  SFeqb (S754_zero s1) c = SFeqb (S754_zero s2) c.
Proof. destruct c; reflexivity. Qed.

Lemma float_eqb_trans (x a y : float) :
  (a =? y)%float = true -> (x =? a)%float = true -> (x =? y)%float = true.
Proof.
  rewrite !FloatAxioms.eqb_spec. intros Hay Hxa.
  destruct (SFeqb_true _ _ Hxa) as [(s1 & s2 & Hx & Ha) | Heq].
  - rewrite Hx. rewrite Ha in Hay. rewrite (SFeqb_zero_l s1 s2). exact Hay.
  - rewrite Heq. exact Hay.
Qed.

(** *** Sets built by [set.add] *)

Section SetAdd.
Context {A B : Type} (eqb : A -> A -> bool) (g : B -> A) (p : A -> bool).

(** [p] cannot tell apart two values the set takes for equal. *)
Hypothesis p_respects : forall a y, eqb a y = true -> p a = true -> p y = true.

Lemma existsb_set_add (x : A) (s : list A) :
  existsb p (set_add eqb x s) = existsb p s || p x.
Proof.
  unfold set_add, set_mem. destruct (existsb (eqb x) s) eqn:Hmem.
  - destruct (p x) eqn:Hpx; [| now rewrite orb_false_r].
    rewrite orb_true_r. apply existsb_exists.
    apply existsb_exists in Hmem. destruct Hmem as (y & Hin & Hxy).
    exists y. split; [exact Hin | exact (p_respects x y Hxy Hpx)].
  - rewrite existsb_app. simpl. now rewrite orb_false_r.
Qed.

Lemma existsb_collect (cs : list B) (acc : list A) :
  existsb p (fold_left (fun s c => set_add eqb (g c) s) cs acc) =
  existsb p acc || existsb (fun c => p (g c)) cs.
Proof.
  revert acc. induction cs as [| c cs IH]; intros acc; simpl.
  - now rewrite orb_false_r.
  - rewrite IH, existsb_set_add. now rewrite orb_assoc.
Qed.
End SetAdd.

Lemma sizes_have_twelve (cs : list pchar) :
  set_mem PrimFloat.eqb 12%float (collect_sizes cs) =
  existsb (fun c => (12 =? round1 (char_size c))%float) cs.
Proof.
  unfold set_mem, collect_sizes.
  rewrite (existsb_collect PrimFloat.eqb (fun c => round1 (char_size c))).
  - reflexivity.
  - intros a y Hay Ha. exact (float_eqb_trans 12%float a y Hay Ha).
Qed.

Lemma fonts_have_times (cs : list pchar) :
  existsb times_font (collect_fonts cs) =
  existsb (fun c => times_font (char_fontname c)) cs.
Proof.
  unfold collect_fonts.
  rewrite (existsb_collect String.eqb char_fontname).
  - reflexivity.
  - intros a y Hay Ha. apply String.eqb_eq in Hay. now subst y.
Qed.

(** *** Substrings *)

Lemma prefix_app_l (a b h : string) :
  String.prefix (a ++ b) h = true -> String.prefix a h = true.
Proof.
  revert h. induction a as [| c a IH]; intros h; simpl.
  - intros _. destruct h; reflexivity.
  - destruct h as [| d h]; [discriminate |]. cbn [prefix].
    destruct (ascii_dec c d); [apply IH | discriminate].
Qed.

Lemma contains_app_l (a b h : string) :
  contains (a ++ b) h = true -> contains a h = true.
Proof.
  induction h as [| d h IH]; cbn [contains].
  - apply prefix_app_l.
  - intros H. apply orb_true_iff in H. apply orb_true_iff.
    destruct H as [H | H]; [left; exact (prefix_app_l a b _ H) | right; auto].
Qed.

(** The second alternative of the font test adds nothing to the first. *)
Lemma times_font_contains (f : string) :
  times_font f = contains "Times" f.
Proof.
  unfold times_font. destruct (contains "Times" f) eqn:H; [reflexivity |].
  destruct (contains "TimesNewRoman" f) eqn:H'; [| reflexivity].
  apply (contains_app_l "Times" "NewRoman") in H'. congruence.
Qed.

(** *** The checker on a readable first page *)

Lemma inspect_first_page_run (f : pdf_file) (page : plumber_page)
  (rest : list plumber_page) (cs : list pchar) (log : list event) :
  pdfplumber_pages f = Return (page :: rest) ->
  chars page = Return cs ->
  inspect_first_page f log =
  (Return
     [("font_size", verdict (set_mem PrimFloat.eqb 12%float (collect_sizes cs)));
      ("font_family", verdict (existsb times_font (collect_fonts cs)));
      ("margin", verdict (forallb within_tolerance (margins page)))],
   log ++ [Opened Pdfplumber]).
Proof.
  intros Hpages Hchars.
  unfold inspect_first_page, bind, tell, lift, ret.
  rewrite Hpages. cbn [first_page]. rewrite Hchars.
  destruct (set_mem PrimFloat.eqb 12%float (collect_sizes cs));
    destruct (existsb times_font (collect_fonts cs));
    destruct (forallb within_tolerance (margins page)); reflexivity.
Qed.

Lemma verdict_pass (ok : bool) : verdict ok = PStr "pass" <-> ok = true.
Proof. destruct ok; unfold verdict, pass, fail; split; congruence. Qed.

Lemma verdict_cases (ok : bool) :
  verdict ok = PStr "pass" \/ verdict ok = PStr "fail".
Proof. destruct ok; [left | right]; reflexivity. Qed.



(** C5: when the extraction raises (pdfplumber cannot open the file, there
    is no first page, or the characters cannot be decoded),
    [check_formatting] returns "fail" for all three fields and raises
    nothing. *)
Theorem check_formatting_absorbs_exceptions (f : pdf_file)
  (log : list event) (e : exception) :
  fst (inspect_first_page f log) = Raise e ->
  fst (check_formatting f log) =
  Return [("font_size", PStr "fail"); ("font_family", PStr "fail");
          ("margin", PStr "fail")].
Proof.
  unfold check_formatting, try_except.
  destruct (inspect_first_page f log) as [[d | e'] log']; cbn.
  - discriminate.
  - reflexivity.
Qed.

Lemma check_formatting_absorbs_exceptions_witness :
  fst (check_formatting (file_of_pages (Return [])) []) =
  Return [("font_size", PStr "fail"); ("font_family", PStr "fail");
          ("margin", PStr "fail")].
Proof.
  apply (check_formatting_absorbs_exceptions
           (file_of_pages (Return [])) [] (Exception "IndexError")).
  reflexivity.
Defined.

(** The three ways in which the extraction raises. *)
Lemma inspect_first_page_raises (f : pdf_file) (log : list event)
  (e : exception) :
  fst (inspect_first_page f log) = Raise e <->
  pdfplumber_pages f = Raise e \/
  (pdfplumber_pages f = Return [] /\ e = Exception "IndexError") \/
  (exists page rest,
      pdfplumber_pages f = Return (page :: rest) /\ chars page = Raise e).
Proof.
  unfold inspect_first_page, bind, tell, lift, ret.
  destruct (pdfplumber_pages f) as [[| page rest] | e0]; cbn.
  - split.
    + intros H. right. left. split; congruence.
    + intros [H | [[_ H] | (p & r & H & _)]]; congruence.
  - destruct (chars page) as [cs | e1] eqn:Hc; cbn.
    + split; [discriminate |].
      intros [H | [[H _] | (p & r & H & H')]]; try discriminate.
      injection H as -> _. congruence.
    + split.
      * intros H. right. right. exists page, rest. split; congruence.
      * intros [H | [[H _] | (p & r & H & H')]]; try discriminate.
        injection H as -> _. congruence.
  - split.
    + intros H. left. congruence.
    + intros [H | [[H _] | (p & r & H & _)]]; congruence.
Qed.

(** [check_formatting] returns on every file. *)
Lemma check_formatting_returns (f : pdf_file) (log : list event) :
  exists d, fst (check_formatting f log) = Return d.
Proof.
  unfold check_formatting, try_except.
  destruct (inspect_first_page f log) as [[d | e] log']; cbn; eauto.
Qed.

(** ** Dictionaries *)

Section DictFacts.
Context {V : Type}.
Implicit Types (d : dict V) (k : string) (v : V).

Lemma dict_get_set_eq k v d : dict_get k (dict_set k v d) = Some v.
Proof.
  induction d as [| [k' v'] d IH]; simpl.
  - now rewrite String.eqb_refl.
  - destruct (String.eqb k k') eqn:E; simpl.
    + now rewrite String.eqb_refl.
    + now rewrite E.
Qed.

Lemma dict_get_set_neq k k' v d :
  k <> k' -> dict_get k (dict_set k' v d) = dict_get k d.
Proof.
  intros Hne. apply String.eqb_neq in Hne.
  induction d as [| [k0 v0] d IH]; simpl.
  - now rewrite Hne.
  - destruct (String.eqb k' k0) eqn:E; simpl.
    + apply String.eqb_eq in E. subst k0. now rewrite Hne.
    + now rewrite IH.
Qed.

Lemma dict_mem_keys k d : dict_mem k d = true <-> In k (dict_keys d).
Proof.
  unfold dict_mem, dict_keys.
  induction d as [| [k' v'] d IH]; simpl.
  - split; [discriminate | tauto].
  - destruct (String.eqb k k') eqn:E.
    + apply String.eqb_eq in E. subst. tauto.
    + apply String.eqb_neq in E. rewrite IH. split; [tauto |].
      intros [H | H]; [congruence | exact H].
Qed.

Lemma dict_mem_existsb k d :
  dict_mem k d = existsb (String.eqb k) (dict_keys d).
Proof.
  unfold dict_mem, dict_keys.
  induction d as [| [k' v'] d IH]; simpl; [reflexivity |].
  destruct (String.eqb k k'); [reflexivity | exact IH].
Qed.

Lemma dict_keys_set k v d :
  dict_keys (dict_set k v d) =
  if dict_mem k d then dict_keys d else dict_keys d ++ [k].
Proof.
  unfold dict_mem, dict_keys.
  induction d as [| [k' v'] d IH]; simpl; [reflexivity |].
  destruct (String.eqb k k') eqn:E; simpl.
  - apply String.eqb_eq in E. now subst.
  - rewrite IH. now destruct (dict_get k d).
Qed.

Lemma dict_set_fresh k v d :
  dict_mem k d = false -> dict_set k v d = d ++ [(k, v)].
Proof.
  unfold dict_mem.
  induction d as [| [k' v'] d IH]; simpl; [reflexivity |].
  destruct (String.eqb k k'); [discriminate |].
  intros H. now rewrite IH.
Qed.

Lemma dict_truthy_keys d : dict_truthy d = false <-> dict_keys d = [].
Proof. destruct d; simpl; split; congruence. Qed.
End DictFacts.

Lemma dict_keys_append (k : string) (i : nat) (d : dict (list nat)) :
  dict_keys (dict_append k i d) =
  if dict_mem k d then dict_keys d else dict_keys d ++ [k].
Proof.
  unfold dict_append. destruct (dict_get k d) eqn:E; apply dict_keys_set.
Qed.

Lemma dict_get_append (k k' : string) (i : nat) (d : dict (list nat)) :
  dict_get k (dict_append k' i d) =
  if String.eqb k k'
  then Some (match dict_get k' d with Some l => l | None => [] end ++ [i])
  else dict_get k d.
Proof.
  unfold dict_append. destruct (String.eqb k k') eqn:E.
  - apply String.eqb_eq in E. subst k'.
    destruct (dict_get k d); now rewrite dict_get_set_eq.
  - apply String.eqb_neq in E.
    destruct (dict_get k' d); now rewrite dict_get_set_neq.
Qed.

(** ** Section Detector: the scan *)

Lemma fold_left_flat_map {A B C : Type} (step : A -> C -> A) (g : B -> list C)
  (l : list B) (a : A) :
  fold_left step (flat_map g l) a =
  fold_left (fun a b => fold_left step (g b) a) l a.
Proof.
  revert a. induction l as [| b l IH]; intros a; simpl; [reflexivity |].
  now rewrite fold_left_app, IH.
Qed.

Lemma fold_left_map {A B C : Type} (step : A -> C -> A) (g : B -> C)
  (l : list B) (a : A) :
  fold_left step (map g l) a = fold_left (fun a b => step a (g b)) l a.
Proof.
  revert a. induction l as [| b l IH]; intros a; simpl; [reflexivity |].
  apply IH.
Qed.

Lemma fold_left_pointwise {A B : Type} (f g : A -> B -> A) (l : list B)
  (a : A) :
  (forall a b, f a b = g a b) -> fold_left f l a = fold_left g l a.
Proof.
  intros Hfg. revert a. induction l as [| b l IH]; intros a; simpl.
  - reflexivity.
  - now rewrite Hfg, IH.
Qed.

(** The two nested loops of the detector are one pass over [doc_lines]. *)
Lemma scan_document_lines (doc : list string) :
  scan_document doc = scan_lines (doc_lines doc) ([], []).
Proof.
  unfold scan_document, scan_lines, doc_lines.
  rewrite fold_left_flat_map.
  apply fold_left_pointwise. intros st [i text]. unfold scan_page.
  now rewrite fold_left_map.
Qed.

Lemma scan_lines_snoc (ls : list (nat * string)) (i : nat) (line : string)
  (st : scan_state) :
  scan_lines (ls ++ [(i, line)]) st = scan_line i (scan_lines ls st) line.
Proof. unfold scan_lines. now rewrite fold_left_app. Qed.

Lemma discovered_snoc (ls : list (nat * string)) (i : nat) (line : string) :
  discovered (ls ++ [(i, line)]) =
  if registers (discovered ls) line
  then discovered ls ++ [normalized_name line] else discovered ls.
Proof. unfold discovered. now rewrite fold_left_app. Qed.

(** What one line does to the state, by the three cases of the loop body. *)
Lemma scan_line_cases (i : nat) (st : scan_state) (line : string) :
  scan_line i st line =
  if registers (dict_keys (fst st)) line
  then (dict_set (normalized_name line) i (fst st),
        dict_append (normalized_name line) i (snd st))
  else if is_heading line then st
  else if dict_truthy (fst st)
       then (fst st, dict_append (dict_last_key (fst st)) i (snd st))
       else st.
Proof.
  destruct st as [starts pages]. unfold scan_line, registers. cbn [fst snd].
  rewrite <- dict_mem_existsb.
  destruct (is_heading line); cbn [andb]; [| reflexivity].
  destruct (negb (normalized_name line =? "")
            && negb (dict_mem (normalized_name line) starts)); reflexivity.
Qed.

(** Both dictionaries of the scan hold the discovered names, in discovery
    order. *)
Lemma scan_lines_keys (ls : list (nat * string)) :
  dict_keys (fst (scan_lines ls ([], []))) = discovered ls /\
  dict_keys (snd (scan_lines ls ([], []))) = discovered ls.
Proof.
  induction ls as [| [i line] ls IH] using rev_ind; [split; reflexivity |].
  rewrite scan_lines_snoc, discovered_snoc, scan_line_cases.
  destruct IH as [IHs IHp]. rewrite IHs.
  destruct (registers (discovered ls) line) eqn:Hreg; cbn [fst snd].
  - unfold registers in Hreg. rewrite !andb_true_iff in Hreg.
    destruct Hreg as [_ Hnew]. apply negb_true_iff in Hnew.
    rewrite dict_keys_set, dict_keys_append, !dict_mem_existsb.
    rewrite IHs, IHp, Hnew. now split.
  - destruct (is_heading line); [now split |].
    destruct (dict_truthy (fst (scan_lines ls ([], [])))) eqn:Ht;
      cbn [fst snd]; [| now split].
    split; [exact IHs |].
    rewrite dict_keys_append, dict_mem_existsb, IHp.
    unfold dict_last_key. rewrite IHs.
    assert (Hin : In (last (discovered ls) "") (discovered ls)).
    { destruct (discovered ls) as [| n ns] eqn:Hd.
      - apply dict_truthy_keys in IHs. congruence.
      - destruct (exists_last (l := n :: ns)) as (l' & a & Hl);
          [discriminate |].
        rewrite Hl, last_last. apply in_or_app. right. now left. }
    destruct (existsb (String.eqb (last (discovered ls) "")) (discovered ls))
      eqn:Hex; [reflexivity |].
    exfalso. apply not_true_iff_false in Hex. apply Hex.
    apply existsb_exists. eexists. split; [exact Hin | apply String.eqb_refl].
Qed.

(** ** Section Detector: attribution of pages *)

Lemma scan_document_split (doc : list string) (pre post : list (nat * string))
  (i : nat) (line : string) :
  doc_lines doc = pre ++ (i, line) :: post ->
  scan_document doc =
  scan_lines post (scan_line i (scan_lines pre ([], [])) line).
Proof.
  intros Hsplit. rewrite scan_document_lines, Hsplit.
  unfold scan_lines. now rewrite fold_left_app.
Qed.

Lemma pages_of_append (sec k : string) (i : nat) (starts : dict nat)
  (pages : dict (list nat)) :
  pages_of sec (starts, dict_append k i pages) =
  if sec =? k then pages_of sec (starts, pages) ++ [i]
  else pages_of sec (starts, pages).
Proof.
  unfold pages_of. cbn [snd]. rewrite dict_get_append.
  destruct (sec =? k) eqn:E; [| reflexivity].
  apply String.eqb_eq in E. now subst k.
Qed.

(** C8: a line that matches neither heading heuristic leaves the registered
    sections as they are; when none is registered yet it attributes its page
    to no section, and otherwise it appends its page to the page list of
    the section registered last in the scan so far, and to no other. *)
Theorem body_line_attribution (doc : list string)
  (pre post : list (nat * string)) (i : nat) (line : string) :
  doc_lines doc = pre ++ (i, line) :: post ->
  is_heading line = false ->
  let st := scan_lines pre ([], []) in
  let st' := scan_line i st line in
  scan_document doc = scan_lines post st' /\
  fst st' = fst st /\
  match discovered pre with
  | [] => st' = st
  | _ :: _ =>
      forall sec,
        pages_of sec st' =
        if sec =? last (discovered pre) ""
        then pages_of sec st ++ [i] else pages_of sec st
  end.
Proof.
  intros Hsplit Hbody st st'.
  split; [exact (scan_document_split doc pre post i line Hsplit) |].
  destruct (scan_lines_keys pre) as [Hkeys _]. fold st in Hkeys.
  subst st'. rewrite scan_line_cases.
  unfold registers. rewrite Hbody. cbn [andb].
  destruct (dict_truthy (fst st)) eqn:Ht.
  - cbn [fst]. split; [reflexivity |].
    destruct (discovered pre) as [| n ns] eqn:Hd.
    + destruct (fst st); [discriminate Ht | discriminate Hkeys].
    + intros sec. unfold dict_last_key. rewrite Hkeys.
      destruct st as [starts pages]. apply pages_of_append.
  - split; [reflexivity |].
    apply dict_truthy_keys in Ht. rewrite Hkeys in Ht. now rewrite Ht.
Qed.

Lemma body_line_attribution_witness :
  let st :=
    scan_lines [(0, "SUMMARY"); (1, "SKILLS:"); (2, "SUMMARY")] ([], []) in
  let st' := scan_line 3 st "body" in
  scan_document interleaved_doc = scan_lines [] st' /\
  fst st' = fst st /\
  forall sec,
    pages_of sec st' =
    if sec =? "skills" then pages_of sec st ++ [3] else pages_of sec st.
Proof.
  exact (body_line_attribution interleaved_doc
           [(0, "SUMMARY"); (1, "SKILLS:"); (2, "SUMMARY")] [] 3 "body"
           eq_refl eq_refl).
Defined.

(** On [interleaved_doc] the body page follows the second "SUMMARY" heading
    and still goes to "skills", the section registered last. *)
Example body_page_goes_to_last_registered :
  snd (scan_document interleaved_doc) =
  [("summary", [0]); ("skills", [1; 3])].
Proof. reflexivity. Qed.

Lemma spent_heading_registers (names : list string) (line : string) :
  spent_heading names line -> registers names line = false.
Proof.
  intros [Hh [Hempty | Hin]]; unfold registers; rewrite Hh; cbn [andb].
  - rewrite Hempty. reflexivity.
  - apply andb_false_iff. right. apply negb_false_iff.
    apply existsb_exists. exists (normalized_name line).
    split; [exact Hin | apply String.eqb_refl].
Qed.

Lemma spent_heading_scan_line (i : nat) (st : scan_state) (line : string) :
  spent_heading (dict_keys (fst st)) line -> scan_line i st line = st.
Proof.
  intros H. rewrite scan_line_cases.
  rewrite (spent_heading_registers _ _ H). destruct H as [-> _]. reflexivity.
Qed.

(** C10: a heading-like line whose normalized name is empty or already
    registered changes neither dictionary of the scan: its page is
    attributed to no section.  Hence a page all of whose lines are such
    lines leaves every page list as it was. *)
Theorem repeated_heading_attributes_nothing (doc : list string)
  (pre post : list (nat * string)) (i : nat) (line : string) :
  doc_lines doc = pre ++ (i, line) :: post ->
  is_heading line = true ->
  normalized_name line = "" \/ In (normalized_name line) (discovered pre) ->
  let st := scan_lines pre ([], []) in
  scan_line i st line = st /\
  scan_document doc = scan_lines post st /\
  (forall sec, pages_of sec (scan_line i st line) = pages_of sec st) /\
  (forall text,
      Forall (spent_heading (discovered pre)) (split newline text) ->
      scan_page st (i, text) = st).
Proof.
  intros Hsplit Hh Hname st.
  destruct (scan_lines_keys pre) as [Hkeys _]. fold st in Hkeys.
  assert (Hline : scan_line i st line = st).
  { apply spent_heading_scan_line. rewrite Hkeys. now split. }
  split; [exact Hline |]. split; [| split].
  - rewrite (scan_document_split doc pre post i line Hsplit).
    fold st. now rewrite Hline.
  - intros sec. now rewrite Hline.
  - intros text Hall. unfold scan_page. cbn [fst snd].
    induction Hall as [| l ls Hl _ IH]; [reflexivity |].
    cbn [fold_left]. rewrite spent_heading_scan_line; [exact IH |].
    now rewrite Hkeys.
Qed.

Lemma repeated_heading_attributes_nothing_witness :
  scan_line 2 (scan_lines [(0, "SUMMARY"); (1, "SKILLS:")] ([], [])) "SUMMARY"
  = ([("summary", 0); ("skills", 1)], [("summary", [0]); ("skills", [1])]).
Proof.
  destruct (repeated_heading_attributes_nothing interleaved_doc
              [(0, "SUMMARY"); (1, "SKILLS:")] [(3, "body")] 2 "SUMMARY"
              eq_refl eq_refl (or_intror (or_introl eq_refl)))
    as (Hline & _).
  rewrite Hline. reflexivity.
Defined.

(** ** Section Detector: the worked example *)

Lemma dict_set_set {V : Type} (k : string) (v v' : V) (d : dict V) :
  dict_set k v (dict_set k v' d) = dict_set k v d.
Proof.
  induction d as [| [k0 v0] d IH]; simpl.
  - now rewrite String.eqb_refl.
  - destruct (String.eqb k k0) eqn:E; simpl.
    + now rewrite String.eqb_refl.
    + now rewrite E, IH.
Qed.

Lemma dict_set_same {V : Type} (k : string) (v : V) (d : dict V) :
  dict_get k d = Some v -> dict_set k v d = d.
Proof.
  induction d as [| [k0 v0] d IH]; simpl; [discriminate |].
  destruct (String.eqb k k0) eqn:E.
  - apply String.eqb_eq in E. intros [= ->]. now subst.
  - intros H. now rewrite IH.
Qed.

(** A run of body lines on page [i] appends [i] once per line to the pages
    of the section registered last. *)
Lemma scan_body_lines (i : nat) (lines : list string) (starts : dict nat)
  (pages : dict (list nat)) (l : list nat) :
  Forall (fun line => is_heading line = false) lines ->
  dict_truthy starts = true ->
  dict_get (dict_last_key starts) pages = Some l ->
  fold_left (scan_line i) lines (starts, pages) =
  (starts,
   dict_set (dict_last_key starts) (l ++ repeat i (List.length lines)) pages).
Proof.
  intros Hbody Ht. revert pages l.
  induction Hbody as [| line lines Hline _ IH]; intros pages l Hget.
  - cbn. rewrite app_nil_r. now rewrite dict_set_same.
  - cbn [fold_left List.length repeat].
    assert (Hstep : scan_line i (starts, pages) line =
                    (starts, dict_set (dict_last_key starts) (l ++ [i]) pages)).
    { unfold scan_line. rewrite Hline, Ht. unfold dict_append.
      now rewrite Hget. }
    rewrite Hstep.
    rewrite (IH _ (l ++ [i])); [| apply dict_get_set_eq].
    now rewrite dict_set_set, <- app_assoc.
Qed.

Lemma split_length (sep : ascii) (s : string) :
  (1 <= List.length (split sep s))%nat.
Proof.
  induction s as [| c s IH]; cbn [split]; [cbn; lia |].
  destruct (Ascii.eqb c sep); [cbn; lia |].
  destruct (split sep s); cbn in *; lia.
Qed.

Lemma scan_body_page (i : nat) (text : string) (starts : dict nat)
  (pages : dict (list nat)) (l : list nat) :
  is_body_page text = true ->
  dict_truthy starts = true ->
  dict_get (dict_last_key starts) pages = Some l ->
  exists n,
    scan_page (starts, pages) (i, text) =
    (starts, dict_set (dict_last_key starts) (l ++ repeat i (S n)) pages).
Proof.
  intros Hbody Ht Hget. unfold scan_page. cbn [fst snd].
  pose proof (split_length newline text) as Hlen.
  destruct (List.length (split newline text)) as [| n] eqn:Hn; [lia |].
  exists n. rewrite <- Hn. apply scan_body_lines; try assumption.
  unfold is_body_page in Hbody. rewrite forallb_forall in Hbody.
  apply Forall_forall. intros line Hin.
  apply negb_true_iff. exact (Hbody line Hin).
Qed.

Lemma set_of_repeat (i n : nat) : set_of (repeat i (S n)) = [i].
Proof.
  unfold set_of. induction n as [| n IH]; [reflexivity |].
  change (repeat i (S (S n))) with (i :: repeat i (S n)).
  cbn [nodup]. destruct (in_dec Nat.eq_dec i (repeat i (S n))) as [_ | Hn].
  - exact IH.
  - exfalso. apply Hn. now left.
Qed.

Lemma set_of_app_repeat (l : list nat) (i n : nat) :
  ~ In i l -> set_of (l ++ repeat i (S n)) = set_of l ++ [i].
Proof.
  unfold set_of. induction l as [| a l IH]; intros Hni.
  - apply set_of_repeat.
  - cbn [app nodup].
    assert (Hai : a <> i) by (intros ->; apply Hni; now left).
    assert (Hl : ~ In i l) by (intros H; apply Hni; now right).
    destruct (in_dec Nat.eq_dec a (l ++ repeat i (S n))) as [Hin | Hnin];
      destruct (in_dec Nat.eq_dec a l) as [Hin' | Hnin'].
    + now apply IH.
    + exfalso. apply in_app_or in Hin. destruct Hin as [Hin | Hin];
        [contradiction |]. apply repeat_spec in Hin. contradiction.
    + exfalso. apply Hnin. apply in_or_app. now left.
    + cbn [app]. f_equal. now apply IH.
Qed.

Lemma example_scan (body1 body2 body3 : string) :
  is_body_page body1 = true ->
  is_body_page body2 = true ->
  is_body_page body3 = true ->
  exists n1 n2 n3,
    scan_document (example_doc body1 body2 body3) =
    ([("summary", 0%nat); ("skills", 3%nat)],
     [("summary", [0%nat] ++ repeat 1%nat (S n1) ++ repeat 2%nat (S n2));
      ("skills", [3%nat] ++ repeat 4%nat (S n3))]).
Proof.
  intros H1 H2 H3. unfold scan_document, example_doc, enumerate.
  cbn [List.length seq combine fold_left].
  change (scan_page ([], []) (0%nat, "SUMMARY"))
    with (@pair (dict nat) (dict (list nat))
            [("summary", 0%nat)] [("summary", [0%nat])]).
  destruct (scan_body_page 1 body1 [("summary", 0%nat)]
              [("summary", [0%nat])] [0%nat] H1 eq_refl eq_refl)
    as (n1 & ->).
  cbn [dict_last_key dict_keys map fst last dict_set String.eqb Ascii.eqb
       Bool.eqb].
  destruct (scan_body_page 2 body2 [("summary", 0%nat)]
              [("summary", [0%nat] ++ repeat 1%nat (S n1))]
              ([0%nat] ++ repeat 1%nat (S n1)) H2 eq_refl eq_refl)
    as (n2 & ->).
  cbn [dict_last_key dict_keys map fst last dict_set String.eqb Ascii.eqb
       Bool.eqb].
  set (L := ([0%nat] ++ repeat 1%nat (S n1)) ++ repeat 2%nat (S n2)).
  change (scan_page ([("summary", 0%nat)], [("summary", L)])
            (3%nat, "SKILLS:"))
    with (@pair (dict nat) (dict (list nat))
            [("summary", 0%nat); ("skills", 3%nat)]
            [("summary", L); ("skills", [3%nat])]).
  destruct (scan_body_page 4 body3 [("summary", 0%nat); ("skills", 3%nat)]
              [("summary", L); ("skills", [3%nat])] [3%nat]
              H3 eq_refl eq_refl)
    as (n3 & ->).
  exists n1, n2, n3. subst L. rewrite <- app_assoc. reflexivity.
Qed.

(** C3, as the code has it: on the document of the worked example with
    limits [{"summary": 2, "skills": 1}] the detector returns
    [{"summary_pages": 3, "summary": "fail", "skills_pages": 2,
      "skills": "fail"}]: the page of a heading counts toward its section,
    for "skills" as for "summary". *)
Theorem worked_example_content (body1 body2 body3 : string)
  (log : list event) :
  is_body_page body1 = true ->
  is_body_page body2 = true ->
  is_body_page body3 = true ->
  detect_sections_dynamic (file_of_texts (example_doc body1 body2 body3))
                          example_limits log =
  (Return [("summary_pages", PInt 3); ("summary", PStr "fail");
           ("skills_pages", PInt 2); ("skills", PStr "fail")],
   log ++ [Opened PyMuPDF]).
Proof.
  intros H1 H2 H3.
  unfold detect_sections_dynamic, bind, tell, lift, ret. cbn [file_of_texts fitz_texts].
  unfold detected_sections.
  destruct (example_scan body1 body2 body3 H1 H2 H3) as (n1 & n2 & n3 & ->).
  cbn [snd distinct_pages map fst].
  assert (E1 : set_of ([0%nat] ++ repeat 1%nat (S n1) ++ repeat 2%nat (S n2))
               = [0; 1; 2]%nat).
  { rewrite app_assoc, set_of_app_repeat.
    - rewrite set_of_app_repeat; [reflexivity |].
      intros [H | []]. discriminate H.
    - intros H. apply in_app_or in H. destruct H as [[H | []] | H].
      + discriminate H.
      + apply repeat_spec in H. discriminate H. }
  assert (E2 : set_of ([3%nat] ++ repeat 4%nat (S n3)) = [3; 4]%nat).
  { rewrite set_of_app_repeat; [reflexivity |].
    intros [H | []]. discriminate H. }
  rewrite E1, E2. reflexivity.
Qed.

Lemma worked_example_content_witness :
  detect_sections_dynamic
    (file_of_texts (example_doc "body one" "body two" "body three"))
    example_limits [] =
  (Return [("summary_pages", PInt 3); ("summary", PStr "fail");
           ("skills_pages", PInt 2); ("skills", PStr "fail")],
   [Opened PyMuPDF]).
Proof.
  apply (worked_example_content "body one" "body two" "body three" []);
    reflexivity.
Defined.

(** On the document of the worked example the content differs from the one
    the example states: "skills" spans the page of its heading and the body
    page, two pages, which exceeds its limit of one. *)
Lemma worked_example_refuted :
  fst (detect_sections_dynamic
         (file_of_texts (example_doc "body one" "body two" "body three"))
         example_limits []) <>
  Return example_claimed_content.
Proof. cbv. intros H. discriminate H. Qed.

(** ** Section names *)

Lemma string_forall_filter (p : ascii -> bool) (s : string) :
  string_forall p (string_filter p s) = true.
Proof.
  induction s as [| c s IH]; cbn; [reflexivity |].
  destruct (p c) eqn:E; cbn; [now rewrite E | exact IH].
Qed.

Lemma string_forall_lstrip (p q : ascii -> bool) (s : string) :
  string_forall p s = true -> string_forall p (lstrip_with q s) = true.
Proof.
  induction s as [| c s IH]; cbn; [reflexivity |].
  intros H. apply andb_true_iff in H. destruct H as [Hc Hs].
  destruct (q c); [apply IH, Hs | cbn; now rewrite Hc, Hs].
Qed.

Lemma string_forall_rstrip (p q : ascii -> bool) (s : string) :
  string_forall p s = true -> string_forall p (rstrip_with q s) = true.
Proof.
  induction s as [| c s IH]; cbn; [reflexivity |].
  intros H. apply andb_true_iff in H. destruct H as [Hc Hs].
  specialize (IH Hs). destruct (rstrip_with q s) as [| c' r].
  - destruct (q c); cbn; [reflexivity | now rewrite Hc].
  - cbn [string_forall] in IH |- *. now rewrite Hc.
Qed.

(** A section name is made of the letters [a]..[z] and blanks. *)
Lemma normalized_name_chars (line : string) :
  string_forall lower_or_blank (normalized_name line) = true.
Proof.
  unfold normalized_name, strip, sub_non_letters.
  apply string_forall_rstrip, string_forall_lstrip, string_forall_filter.
Qed.

Lemma lower_or_blank_not_underscore (c : ascii) :
  lower_or_blank c = true -> c <> "_"%char.
Proof.
  intros H ->. discriminate H.
Qed.

Lemma replace_blank_inj (s1 s2 : string) :
  string_forall lower_or_blank s1 = true ->
  string_forall lower_or_blank s2 = true ->
  replace_char " " "_" s1 = replace_char " " "_" s2 -> s1 = s2.
Proof.
  revert s2. induction s1 as [| c1 s1 IH]; intros [| c2 s2]; cbn;
    try reflexivity; try discriminate.
  intros H1 H2 Heq.
  apply andb_true_iff in H1. destruct H1 as [Hc1 Hs1].
  apply andb_true_iff in H2. destruct H2 as [Hc2 Hs2].
  injection Heq as Hc Hs. f_equal; [| now apply IH].
  apply lower_or_blank_not_underscore in Hc1, Hc2.
  destruct (Ascii.eqb c1 " ") eqn:E1; destruct (Ascii.eqb c2 " ") eqn:E2.
  - apply Ascii.eqb_eq in E1, E2. congruence.
  - congruence.
  - congruence.
  - exact Hc.
Qed.


Lemma length_append (s1 s2 : string) :
  String.length (s1 ++ s2) = (String.length s1 + String.length s2)%nat.
Proof. induction s1 as [| c s1 IH]; cbn; [reflexivity | now rewrite IH]. Qed.

Lemma append_inj_r (s1 s2 t : string) :
  (s1 ++ t)%string = (s2 ++ t)%string -> s1 = s2.
Proof.
  intros H.
  assert (Hlen : String.length s1 = String.length s2).
  { apply (f_equal String.length) in H.
    rewrite !length_append in H. lia. }
  revert s2 H Hlen. induction s1 as [| c1 s1 IH]; intros [| c2 s2] H Hlen;
    cbn in *; try discriminate; [reflexivity |].
  injection H as -> H. f_equal. apply IH; [exact H | lia].
Qed.

Lemma page_key_inj (s1 s2 : string) :
  string_forall lower_or_blank s1 = true ->
  string_forall lower_or_blank s2 = true ->
  page_key_of s1 = page_key_of s2 -> s1 = s2.
Proof.
  intros H1 H2 H. unfold page_key_of in H. apply append_inj_r in H.
  now apply replace_blank_inj.
Qed.

(** ** Discovery order *)

Lemma registers_true (names : list string) (line : string) :
  registers names line = true <->
  is_heading line = true /\ normalized_name line <> "" /\
  ~ In (normalized_name line) names.
Proof.
  unfold registers. rewrite !andb_true_iff, !negb_true_iff.
  rewrite String.eqb_neq.
  assert (Hex : existsb (String.eqb (normalized_name line)) names = false <->
                ~ In (normalized_name line) names).
  { rewrite <- not_true_iff_false, existsb_exists. split.
    - intros H Hin. apply H. eexists. split; [exact Hin |].
      apply String.eqb_refl.
    - intros H (y & Hin & Hy). apply String.eqb_eq in Hy. now subst y. }
  rewrite Hex. tauto.
Qed.

(** Every discovered name is the non-empty name of a heading line. *)
Lemma discovered_sound (ls : list (nat * string)) (name : string) :
  In name (discovered ls) ->
  exists i line,
    In (i, line) ls /\ is_heading line = true /\
    normalized_name line <> "" /\ name = normalized_name line.
Proof.
  induction ls as [| [i line] ls IH] using rev_ind; [intros [] |].
  rewrite discovered_snoc.
  destruct (registers (discovered ls) line) eqn:Hreg.
  - intros Hin. apply in_app_or in Hin. destruct Hin as [Hin | [<- | []]].
    + destruct (IH Hin) as (j & l & Hl & H). exists j, l.
      split; [apply in_or_app; now left | exact H].
    + apply registers_true in Hreg. destruct Hreg as (Hh & Hne & _).
      exists i, line. split; [apply in_or_app; right; now left |].
      now repeat split.
  - intros Hin. destruct (IH Hin) as (j & l & Hl & H). exists j, l.
    split; [apply in_or_app; now left | exact H].
Qed.

(** Every heading line with a non-empty name has its name discovered. *)
Lemma discovered_complete (ls : list (nat * string)) (i : nat)
  (line : string) :
  In (i, line) ls -> is_heading line = true -> normalized_name line <> "" ->
  In (normalized_name line) (discovered ls).
Proof.
  intros Hin Hh Hne.
  induction ls as [| [j l] ls IH] using rev_ind; [destruct Hin |].
  rewrite discovered_snoc.
  apply in_app_or in Hin. destruct Hin as [Hin | [Heq | []]].
  - specialize (IH Hin).
    destruct (registers (discovered ls) l); [apply in_or_app; now left |].
    exact IH.
  - injection Heq as -> ->.
    destruct (registers (discovered ls) line) eqn:Hreg.
    + apply in_or_app. right. now left.
    + destruct (in_dec string_dec (normalized_name line) (discovered ls))
        as [Hd | Hd]; [exact Hd |].
      assert (registers (discovered ls) line = true)
        by (apply registers_true; now repeat split).
      congruence.
Qed.

Lemma discovered_NoDup (ls : list (nat * string)) : NoDup (discovered ls).
Proof.
  induction ls as [| [i line] ls IH] using rev_ind; [constructor |].
  rewrite discovered_snoc.
  destruct (registers (discovered ls) line) eqn:Hreg; [| exact IH].
  apply registers_true in Hreg. destruct Hreg as (_ & _ & Hnew).
  apply NoDup_app; [exact IH | repeat constructor; intros [] |].
  intros x Hx [<- | []]. contradiction.
Qed.

Lemma discovered_chars (ls : list (nat * string)) (name : string) :
  In name (discovered ls) -> string_forall lower_or_blank name = true.
Proof.
  intros Hin. destruct (discovered_sound ls name Hin) as (i & l & _ & _ & _ & ->).
  apply normalized_name_chars.
Qed.

(** The detected sections are the discovered names, in discovery order. *)
Lemma detected_sections_keys (doc : list string) :
  dict_keys (detected_sections doc) = discovered (doc_lines doc).
Proof.
  unfold detected_sections, distinct_pages, dict_keys.
  rewrite map_map. cbn [fst]. rewrite scan_document_lines.
  exact (proj2 (scan_lines_keys (doc_lines doc))).
Qed.

(** ** Section Detector: the result *)

Lemma detect_sections_dynamic_run (f : pdf_file) (limits : option (dict Z))
  (log : list event) :
  detect_sections_dynamic f limits log =
  (match fitz_texts f with
   | Return doc => Return (build_result limits (detected_sections doc))
   | Raise e => Raise e
   end,
   log ++ [Opened PyMuPDF]).
Proof.
  unfold detect_sections_dynamic, bind, tell, lift, ret.
  destruct (fitz_texts f); reflexivity.
Qed.

Lemma build_result_app (limits : option (dict Z))
  (l1 l2 : dict (list nat)) :
  build_result limits (l1 ++ l2) =
  fold_left (emit_section limits) l2 (build_result limits l1).
Proof. unfold build_result. apply fold_left_app. Qed.

Lemma in_dict_keys_set {V : Type} (k k' : string) (v : V) (d : dict V) :
  In k (dict_keys (dict_set k' v d)) <-> In k (dict_keys d) \/ k = k'.
Proof.
  rewrite dict_keys_set. destruct (dict_mem k' d) eqn:E.
  - apply dict_mem_keys in E. split; [tauto |].
    intros [H | ->]; assumption.
  - rewrite in_app_iff. cbn. intuition congruence.
Qed.

Lemma emit_section_keys (limits : option (dict Z)) (result : dict pyval)
  (sec : string) (pages : list nat) (k : string) :
  In k (dict_keys (emit_section limits result (sec, pages))) <->
  In k (dict_keys result) \/ k = page_key_of sec \/ k = status_key_of sec.
Proof.
  unfold emit_section. rewrite !in_dict_keys_set. tauto.
Qed.

Lemma fold_emit_keys (limits : option (dict Z)) (sections : dict (list nat))
  (result : dict pyval) (k : string) :
  In k (dict_keys (fold_left (emit_section limits) sections result)) <->
  In k (dict_keys result) \/
  exists sec, In sec (dict_keys sections) /\
              (k = page_key_of sec \/ k = status_key_of sec).
Proof.
  revert result. induction sections as [| [sec pages] sections IH];
    intros result; cbn [fold_left].
  - split; [tauto | intros [H | (s & [] & _)]; exact H].
  - rewrite IH, emit_section_keys. split.
    + intros [[H | H] | (s & Hs & H)].
      * now left.
      * right. exists sec. split; [now left | exact H].
      * right. exists s. split; [now right | exact H].
    + intros [H | (s & [Hs | Hs] & H)].
      * left. now left.
      * cbn in Hs. subst s. left. now right.
      * right. exists s. now split.
Qed.

(** An entry survives the sections emitted later unless one of them writes
    its key. *)
Lemma fold_emit_get (limits : option (dict Z)) (sections : dict (list nat))
  (result : dict pyval) (k : string) :
  (forall sec, In sec (dict_keys sections) ->
               page_key_of sec <> k /\ status_key_of sec <> k) ->
  dict_get k (fold_left (emit_section limits) sections result) =
  dict_get k result.
Proof.
  revert result. induction sections as [| [sec pages] sections IH];
    intros result Hfree; cbn [fold_left]; [reflexivity |].
  rewrite IH.
  - destruct (Hfree sec (or_introl eq_refl)) as [Hp Hs].
    unfold emit_section.
    rewrite !dict_get_set_neq by congruence. reflexivity.
  - intros s Hs. apply Hfree. now right.
Qed.


(** ** Section Detector: the limits and the page counts *)

Lemma same_up_to_status_set (k : string) (v1 v2 : pyval)
  (r1 r2 : dict pyval) :
  Forall2 same_up_to_status r1 r2 ->
  (v1 = v2 \/ exists s1 s2, v1 = PStr s1 /\ v2 = PStr s2) ->
  Forall2 same_up_to_status (dict_set k v1 r1) (dict_set k v2 r2).
Proof.
  intros Hr Hv. induction Hr as [| [k1 w1] [k2 w2] r1 r2 [Hk Hw] Hr IH];
    cbn [dict_set].
  - constructor; [split; [reflexivity | exact Hv] | constructor].
  - cbn [fst snd] in Hk, Hw. subst k2.
    destruct (String.eqb k k1).
    + constructor; [split; [reflexivity | exact Hv] | exact Hr].
    + constructor; [split; [reflexivity | exact Hw] | exact IH].
Qed.

Lemma same_up_to_status_build (l1 l2 : option (dict Z))
  (sections : dict (list nat)) :
  Forall2 same_up_to_status (build_result l1 sections)
          (build_result l2 sections).
Proof.
  unfold build_result.
  assert (H0 : Forall2 same_up_to_status (@nil (string * pyval)) [])
    by constructor.
  revert H0. generalize (@nil (string * pyval)) at 1 3.
  generalize (@nil (string * pyval)).
  induction sections as [| [sec pages] sections IH]; intros r2 r1 Hr;
    cbn [fold_left]; [exact Hr |].
  apply IH. unfold emit_section.
  apply same_up_to_status_set; [| right; eauto].
  apply same_up_to_status_set; [exact Hr | now left].
Qed.

Lemma same_up_to_status_keys (r1 r2 : dict pyval) :
  Forall2 same_up_to_status r1 r2 -> dict_keys r1 = dict_keys r2.
Proof.
  unfold dict_keys.
  induction 1 as [| a b r1 r2 [Hk _] _ IH]; cbn [map]; [reflexivity |].
  now rewrite Hk, IH.
Qed.

Lemma same_up_to_status_ints (r1 r2 : dict pyval) (k : string) (n : Z) :
  Forall2 same_up_to_status r1 r2 ->
  dict_get k r1 = Some (PInt n) <-> dict_get k r2 = Some (PInt n).
Proof.
  induction 1 as [| [k1 w1] [k2 w2] r1 r2 [Hk Hw] _ IH]; cbn [dict_get];
    [tauto |].
  cbn [fst snd] in Hk, Hw. subst k2.
  destruct (String.eqb k k1); [| exact IH].
  destruct Hw as [-> | (s1 & s2 & -> & ->)]; [tauto |].
  split; discriminate.
Qed.

(** C6: two runs of the detector on one document with different limits
    both raise the same exception or both return; the two results have the
    same keys in the same order, and entry by entry they hold the same value
    or two status strings: whatever integer one result holds under a key,
    the other holds under it too. *)
Theorem limits_leave_page_counts (f : pdf_file) (l1 l2 : option (dict Z))
  (log : list event) :
  match fst (detect_sections_dynamic f l1 log),
        fst (detect_sections_dynamic f l2 log) with
  | Return r1, Return r2 =>
      dict_keys r1 = dict_keys r2 /\
      (forall k n, dict_get k r1 = Some (PInt n) <->
                   dict_get k r2 = Some (PInt n)) /\
      Forall2 same_up_to_status r1 r2
  | Raise e1, Raise e2 => e1 = e2
  | _, _ => False
  end.
Proof.
  rewrite !detect_sections_dynamic_run. cbn [fst].
  destruct (fitz_texts f) as [doc | e]; [| reflexivity].
  pose proof (same_up_to_status_build l1 l2 (detected_sections doc)) as H.
  split; [exact (same_up_to_status_keys _ _ H) |].
  split; [| exact H].
  intros k n. exact (same_up_to_status_ints _ _ k n H).
Qed.

(** ** Section Detector: the keys of the result *)

(** C7, as the code has it: the keys of the result are exactly, for each
    heading line with a non-empty normalized name, the name with every blank
    replaced by an underscore, and that string followed by "_pages"; the
    name is the stripped line lowercased, without the characters other than
    [a]..[z] and the blank, and stripped again, its inner blanks left as
    they are. *)
Theorem result_keys (f : pdf_file) (doc : list string)
  (limits : option (dict Z)) (log : list event) :
  fitz_texts f = Return doc ->
  exists result,
    fst (detect_sections_dynamic f limits log) = Return result /\
    forall key,
      In key (dict_keys result) <->
      exists i line,
        In (i, line) (doc_lines doc) /\ is_heading line = true /\
        normalized_name line <> "" /\
        (key = (replace_char " " "_" (normalized_name line) ++ "_pages")%string
         \/ key = replace_char " " "_" (normalized_name line)).
Proof.
  intros Hdoc. rewrite detect_sections_dynamic_run, Hdoc. cbn [fst].
  eexists. split; [reflexivity |].
  intros key. unfold build_result. rewrite fold_emit_keys.
  rewrite detected_sections_keys. split.
  - intros [[] | (sec & Hsec & Hkey)].
    destruct (discovered_sound _ _ Hsec) as (i & line & Hin & Hh & Hne & ->).
    exists i, line. repeat split; assumption.
  - intros (i & line & Hin & Hh & Hne & Hkey). right.
    exists (normalized_name line). split; [| exact Hkey].
    exact (discovered_complete _ i line Hin Hh Hne).
Qed.

Lemma result_keys_witness :
  exists result,
    fst (detect_sections_dynamic (file_of_texts headings_doc) None [])
    = Return result /\
    forall key,
      In key (dict_keys result) <->
      exists i line,
        In (i, line) (doc_lines headings_doc) /\ is_heading line = true /\
        normalized_name line <> "" /\
        (key = (replace_char " " "_" (normalized_name line) ++ "_pages")%string
         \/ key = replace_char " " "_" (normalized_name line)).
Proof.
  exact (result_keys (file_of_texts headings_doc) headings_doc None []
           eq_refl).
Defined.

(** On [headings_doc] both lines are headings, and none of the keys the
    specification gives their sections is a key of the result: the blank of
    "work experience" has become an underscore, and the two blanks left in
    "page  of" by the digit are both kept. *)
Lemma spec_keys_refuted :
  let result :=
    build_result None (detected_sections headings_doc) in
  fst (detect_sections_dynamic (file_of_texts headings_doc) None [])
  = Return result /\
  dict_keys result =
  ["work_experience_pages"; "work_experience"; "page__of_pages"; "page__of"] /\
  is_heading "WORK EXPERIENCE" = true /\
  spec_section_keys "WORK EXPERIENCE"
  = ["work experience_pages"; "work experience"] /\
  is_heading "PAGE 1 OF 2" = true /\
  normalized_name "PAGE 1 OF 2" = "page  of" /\
  spec_section_keys "PAGE 1 OF 2" = ["page of_pages"; "page of"] /\
  forall key,
    In key (spec_section_keys "WORK EXPERIENCE" ++
            spec_section_keys "PAGE 1 OF 2") ->
    ~ In key (dict_keys result).
Proof.
  cbv zeta. repeat split.
  intros key Hkey Hin. vm_compute in Hkey, Hin.
  repeat (destruct Hkey as [<- | Hkey];
          [repeat (destruct Hin as [Hin | Hin]; [discriminate Hin |]);
           exact Hin |]).
  exact Hkey.
Qed.

(** ** Compliance Aggregator on an accepted file *)

Lemma check_formatting_shape (f : pdf_file) (log : list event) :
  exists font_size font_family margin,
    check_formatting f log =
    (Return [("font_size", font_size); ("font_family", font_family);
             ("margin", margin)],
     log ++ [Opened Pdfplumber]).
Proof.
  destruct (pdfplumber_pages f) as [[| page rest] | e] eqn:Hpages.
  - exists fail, fail, fail.
    unfold check_formatting, try_except, inspect_first_page, bind, tell,
      lift, ret. now rewrite Hpages.
  - destruct (chars page) as [cs | e] eqn:Hchars.
    + eexists _, _, _. unfold check_formatting, try_except.
      rewrite (inspect_first_page_run f page rest cs log Hpages Hchars).
      reflexivity.
    + exists fail, fail, fail.
      unfold check_formatting, try_except, inspect_first_page, bind, tell,
        lift, ret. rewrite Hpages. cbn [first_page]. now rewrite Hchars.
  - exists fail, fail, fail.
    unfold check_formatting, try_except, inspect_first_page, bind, tell,
      lift, ret. now rewrite Hpages.
Qed.

Lemma dict_set_NoDup {V : Type} (k : string) (v : V) (d : dict V) :
  NoDup (dict_keys d) -> NoDup (dict_keys (dict_set k v d)).
Proof.
  intros Hnd. rewrite dict_keys_set. destruct (dict_mem k d) eqn:E.
  - exact Hnd.
  - apply NoDup_app; [exact Hnd | repeat constructor; intros [] |].
    intros x Hx [<- | []].
    apply dict_mem_keys in Hx. congruence.
Qed.

Lemma build_result_NoDup (limits : option (dict Z))
  (sections : dict (list nat)) :
  NoDup (dict_keys (build_result limits sections)).
Proof.
  unfold build_result.
  assert (H0 : NoDup (dict_keys (@nil (string * pyval)))) by constructor.
  revert H0. generalize (@nil (string * pyval)).
  induction sections as [| [sec pages] sections IH]; intros r Hr;
    cbn [fold_left]; [exact Hr |].
  apply IH. unfold emit_section. now apply dict_set_NoDup, dict_set_NoDup.
Qed.

(** Updating with a dictionary whose keys are all new appends it. *)
Lemma dict_update_fresh {V : Type} (d acc : dict V) :
  NoDup (dict_keys d) ->
  (forall k, In k (dict_keys d) -> ~ In k (dict_keys acc)) ->
  dict_update acc d = acc ++ d.
Proof.
  unfold dict_update. revert acc.
  induction d as [| [k v] d IH]; intros acc Hnd Hfresh; cbn [fold_left].
  - now rewrite app_nil_r.
  - cbn [fst snd]. unfold dict_keys in Hnd. cbn [map fst] in Hnd.
    apply NoDup_cons_iff in Hnd. destruct Hnd as [Hk Hnd].
    rewrite dict_set_fresh.
    + rewrite IH; [now rewrite <- app_assoc | exact Hnd |].
      intros k' Hk' Hin. unfold dict_keys in Hin. rewrite map_app in Hin.
      apply in_app_or in Hin. destruct Hin as [Hin | [<- | []]].
      * apply (Hfresh k'); [now right | exact Hin].
      * contradiction.
    + apply not_true_iff_false. intros Hmem. apply dict_mem_keys in Hmem.
      apply (Hfresh k); [now left | exact Hmem].
Qed.

(** C9, as the code has it: on a file the validator accepts, the typography
    stage raises nothing; when PyMuPDF extracts the page texts,
    [analyze_pdf] returns a report with the keys "format" and "content",
    and when PyMuPDF raises, the exception leaves [analyze_pdf], which has
    no handler around the Section Detector. *)
Theorem analyze_pdf_accepted (f : pdf_file) (limits : option (dict Z))
  (log : list event) :
  fst (is_valid_pdf f log) = Return true ->
  exists font_size font_family margin,
    fst (check_formatting f (log ++ [Opened PyPDF2])) =
    Return [("font_size", font_size); ("font_family", font_family);
            ("margin", margin)] /\
    analyze_pdf f limits log =
    (match fitz_texts f with
     | Return doc =>
         Return [("format", [("file_type", PStr "pass");
                             ("font_size", font_size);
                             ("font_family", font_family);
                             ("margin", margin)]);
                 ("content", build_result limits (detected_sections doc))]
     | Raise e => Raise e
     end,
     log ++ [Opened PyPDF2; Opened Pdfplumber; Opened PyMuPDF]).
Proof.
  intros Hvalid. rewrite is_valid_pdf_run in Hvalid. cbn [fst] in Hvalid.
  destruct (check_formatting_shape f (log ++ [Opened PyPDF2]))
    as (a & b & c & Hfmt).
  exists a, b, c. split; [now rewrite Hfmt |].
  unfold analyze_pdf, bind. rewrite is_valid_pdf_run.
  destruct (pypdf2_reader f); [| discriminate Hvalid].
  cbn [negb]. rewrite Hfmt, detect_sections_dynamic_run.
  rewrite <- !app_assoc. cbn [app].
  destruct (fitz_texts f) as [doc | e]; [| reflexivity].
  unfold ret. f_equal. f_equal.
  unfold empty_report, dict_modify. cbn -[build_result detected_sections].
  rewrite dict_update_fresh.
  - reflexivity.
  - apply build_result_NoDup.
  - intros k _ [].
Qed.

Lemma analyze_pdf_accepted_witness :
  exists font_size font_family margin,
    fst (check_formatting protected_file [Opened PyPDF2]) =
    Return [("font_size", font_size); ("font_family", font_family);
            ("margin", margin)] /\
    analyze_pdf protected_file None [] =
    (Raise (Exception "ValueError"),
     [Opened PyPDF2; Opened Pdfplumber; Opened PyMuPDF]).
Proof.
  exact (analyze_pdf_accepted protected_file None [] eq_refl).
Defined.

(** The validator accepts [protected_file] and [analyze_pdf] raises on it. *)
Lemma analyze_pdf_raises_on_accepted :
  fst (is_valid_pdf protected_file []) = Return true /\
  fst (analyze_pdf protected_file None []) = Raise (Exception "ValueError").
Proof. split; reflexivity. Qed.

(** ** Further facts about the result *)

Lemma insert_sorted_length (n : nat) (l : list nat) :
  List.length (insert_sorted n l) = S (List.length l).
Proof.
  induction l as [| m l IH]; cbn; [reflexivity |].
  destruct (n <=? m)%nat; cbn; [reflexivity | now rewrite IH].
Qed.

Lemma sorted_length (l : list nat) : List.length (sorted l) = List.length l.
Proof.
  unfold sorted. induction l as [| n l IH]; cbn; [reflexivity |].
  now rewrite insert_sorted_length, IH.
Qed.

(** The page count of a detected section is the number of distinct pages
    attributed to it. *)
Lemma page_count_distinct (doc : list string) (sec : string)
  (pages : list nat) :
  In (sec, pages) (detected_sections doc) ->
  exists attributed,
    In (sec, attributed) (snd (scan_document doc)) /\
    List.length pages = List.length (nodup Nat.eq_dec attributed).
Proof.
  unfold detected_sections, distinct_pages. intros Hin.
  apply in_map_iff in Hin. destruct Hin as ([s l] & Heq & Hin).
  cbn [fst snd] in Heq. injection Heq as -> <-.
  exists l. split; [exact Hin | apply sorted_length].
Qed.

(** Without a heading line the content is empty, whatever the limits. *)
Lemma no_heading_no_content (doc : list string) (limits : option (dict Z)) :
  (forall i line, In (i, line) (doc_lines doc) -> is_heading line = false) ->
  build_result limits (detected_sections doc) = [].
Proof.
  intros Hbody.
  assert (Hnone : discovered (doc_lines doc) = []).
  { destruct (discovered (doc_lines doc)) as [| name names] eqn:Hd;
      [reflexivity |].
    destruct (discovered_sound (doc_lines doc) name) as (i & line & Hin & Hh & _).
    - rewrite Hd. now left.
    - rewrite (Hbody i line Hin) in Hh. discriminate Hh. }
  pose proof (detected_sections_keys doc) as Hkeys. rewrite Hnone in Hkeys.
  destruct (detected_sections doc); [reflexivity | discriminate Hkeys].
Qed.

(** On [colliding_doc] the key "summary_pages" ends as the status of the
    section "summary pages", written over the page count of "summary": the
    value under it is a status and follows the limits, and the integers of
    the two results are the same. *)
Example colliding_keys :
  build_result None (detected_sections colliding_doc) =
  [("summary_pages", PStr "n/a"); ("summary", PStr "n/a");
   ("summary_pages_pages", PInt 1)] /\
  build_result (Some [("summary pages", 1%Z)]) (detected_sections colliding_doc)
  = [("summary_pages", PStr "pass"); ("summary", PStr "n/a");
     ("summary_pages_pages", PInt 1)].
Proof. split; reflexivity. Qed.

(** * Further properties of the checker *)

(** ** Typography Checker *)

(** On every file [check_formatting] returns, after one call of pdfplumber,
    a mapping with exactly the keys "font_size", "font_family" and "margin"
    in this order, each "pass" or "fail". *)
Theorem check_formatting_three_verdicts (f : pdf_file) (log : list event) :
  exists font_size font_family margin,
    check_formatting f log =
    (Return [("font_size", font_size); ("font_family", font_family);
             ("margin", margin)],
     log ++ [Opened Pdfplumber]) /\
    (font_size = PStr "pass" \/ font_size = PStr "fail") /\
    (font_family = PStr "pass" \/ font_family = PStr "fail") /\
    (margin = PStr "pass" \/ margin = PStr "fail").
Proof.
  assert (Hfail : forall (o : outcome (dict pyval)) e,
             o = Raise e ->
             exists a b c : pyval,
               (Return (map (fun kv : string * pyval => (fst kv, fail))
                            formatting_result),
                log ++ [Opened Pdfplumber]) =
               (Return [("font_size", a); ("font_family", b); ("margin", c)],
                log ++ [Opened Pdfplumber]) /\
               (a = PStr "pass" \/ a = PStr "fail") /\
               (b = PStr "pass" \/ b = PStr "fail") /\
               (c = PStr "pass" \/ c = PStr "fail")).
  { intros _ _ _. exists fail, fail, fail.
    split; [reflexivity |]. repeat split; now right. }
  destruct (pdfplumber_pages f) as [[| page rest] | e] eqn:Hpages.
  - unfold check_formatting, try_except, inspect_first_page, bind, tell,
      lift, ret. rewrite Hpages. cbn [first_page].
    exact (Hfail (Raise (Exception "IndexError")) _ eq_refl).
  - destruct (chars page) as [cs | e] eqn:Hchars.
    + eexists _, _, _. unfold check_formatting, try_except.
      rewrite (inspect_first_page_run f page rest cs log Hpages Hchars).
      split; [reflexivity |]. repeat split; apply verdict_cases.
    + unfold check_formatting, try_except, inspect_first_page, bind, tell,
        lift, ret. rewrite Hpages. cbn [first_page]. rewrite Hchars.
      exact (Hfail (Raise e) _ eq_refl).
  - unfold check_formatting, try_except, inspect_first_page, bind, tell,
      lift, ret. rewrite Hpages.
    exact (Hfail (Raise e) _ eq_refl).
Qed.

Lemma existsb_pointwise {A : Type} (p q : A -> bool) (l : list A) :
  (forall a, p a = q a) -> existsb p l = existsb q l.
Proof.
  intros Hpq. induction l as [| a l IH]; cbn; [reflexivity |].
  now rewrite Hpq, IH.
Qed.

(** What the checker answers when the first page exists. *)
Lemma check_formatting_on_page (f : pdf_file) (page : plumber_page)
  (rest : list plumber_page) (log : list event) :
  pdfplumber_pages f = Return (page :: rest) ->
  fst (check_formatting f log) =
  Return
    match chars page with
    | Return cs =>
        [("font_size",
          verdict (existsb (fun c => (12 =? round1 (char_size c))%float) cs));
         ("font_family",
          verdict (existsb (fun c => contains "Times" (char_fontname c)) cs));
         ("margin", verdict (forallb within_tolerance (margins page)))]
    | Raise _ =>
        [("font_size", fail); ("font_family", fail); ("margin", fail)]
    end.
Proof.
  intros Hpages. destruct (chars page) as [cs | e] eqn:Hchars.
  - unfold check_formatting, try_except.
    rewrite (inspect_first_page_run f page rest cs log Hpages Hchars).
    cbn [fst]. rewrite sizes_have_twelve, fonts_have_times.
    do 4 f_equal. f_equal. apply existsb_pointwise.
    intros c. apply times_font_contains.
  - unfold check_formatting, try_except, inspect_first_page, bind, tell,
      lift, ret. rewrite Hpages. cbn [first_page]. now rewrite Hchars.
Qed.

(** [check_formatting] looks at the first page only: two files whose first
    pages are the same get the same verdicts, whatever pages follow. *)
Theorem check_formatting_first_page_only (f1 f2 : pdf_file)
  (page : plumber_page) (rest1 rest2 : list plumber_page)
  (log : list event) :
  pdfplumber_pages f1 = Return (page :: rest1) ->
  pdfplumber_pages f2 = Return (page :: rest2) ->
  check_formatting f1 log = check_formatting f2 log.
Proof.
  intros H1 H2.
  destruct (check_formatting_three_verdicts f1 log) as (a1 & b1 & c1 & E1 & _).
  destruct (check_formatting_three_verdicts f2 log) as (a2 & b2 & c2 & E2 & _).
  pose proof (check_formatting_on_page f1 page rest1 log H1) as P1.
  pose proof (check_formatting_on_page f2 page rest2 log H2) as P2.
  rewrite E1 in P1 |- *. rewrite E2 in P2 |- *. cbn [fst] in P1, P2.
  f_equal. congruence.
Qed.

Lemma check_formatting_first_page_only_witness :
  check_formatting (file_of_pages (Return [letter_page [times_run]])) [] =
  check_formatting
    (file_of_pages (Return [letter_page [times_run]; narrow_page; full_page]))
    [].
Proof.
  exact (check_formatting_first_page_only
           (file_of_pages (Return [letter_page [times_run]]))
           (file_of_pages
              (Return [letter_page [times_run]; narrow_page; full_page]))
           (letter_page [times_run]) [] [narrow_page; full_page] []
           eq_refl eq_refl).
Defined.

(** Characters can only help: when the characters of one first page are
    among those of another, a "pass" of [font_size] or of [font_family] on
    the first is a "pass" on the second. *)
Theorem more_characters_keep_pass (f f' : pdf_file)
  (page page' : plumber_page) (rest rest' : list plumber_page)
  (cs cs' : list pchar) (log log' : list event) (d d' : dict pyval) :
  pdfplumber_pages f = Return (page :: rest) ->
  pdfplumber_pages f' = Return (page' :: rest') ->
  chars page = Return cs ->
  chars page' = Return cs' ->
  incl cs cs' ->
  fst (check_formatting f log) = Return d ->
  fst (check_formatting f' log') = Return d' ->
  (dict_get "font_size" d = Some (PStr "pass") ->
   dict_get "font_size" d' = Some (PStr "pass")) /\
  (dict_get "font_family" d = Some (PStr "pass") ->
   dict_get "font_family" d' = Some (PStr "pass")).
Proof.
  intros Hp Hp' Hc Hc' Hincl Hd Hd'.
  rewrite (check_formatting_on_page f page rest log Hp), Hc in Hd.
  rewrite (check_formatting_on_page f' page' rest' log' Hp'), Hc' in Hd'.
  injection Hd as <-. injection Hd' as <-. cbn [dict_get String.eqb Ascii.eqb Bool.eqb].
  assert (Hmono : forall p : pchar -> bool,
             verdict (existsb p cs) = PStr "pass" ->
             verdict (existsb p cs') = PStr "pass").
  { intros p H. apply verdict_pass in H. apply verdict_pass.
    apply existsb_exists in H. destruct H as (c & Hin & Hc0).
    apply existsb_exists. exists c. split; [apply Hincl, Hin | exact Hc0]. }
  split; intros [= H]; f_equal; now apply Hmono.
Qed.

Lemma more_characters_keep_pass_witness :
  (dict_get "font_size" [("font_size", PStr "pass");
                         ("font_family", PStr "pass");
                         ("margin", PStr "pass")] = Some (PStr "pass") ->
   dict_get "font_size" [("font_size", PStr "pass");
                         ("font_family", PStr "pass");
                         ("margin", PStr "pass")] = Some (PStr "pass")) /\
  (dict_get "font_family" [("font_size", PStr "pass");
                           ("font_family", PStr "pass");
                           ("margin", PStr "pass")] = Some (PStr "pass") ->
   dict_get "font_family" [("font_size", PStr "pass");
                           ("font_family", PStr "pass");
                           ("margin", PStr "pass")] = Some (PStr "pass")).
Proof.
  apply (more_characters_keep_pass
           (file_of_pages (Return [letter_page [times_run]]))
           (file_of_pages (Return [letter_page [arial_run; times_run]]))
           (letter_page [times_run]) (letter_page [arial_run; times_run])
           [] [] [times_run] [arial_run; times_run] [] []);
    try reflexivity.
  intros c [<- | []]. right. now left.
Defined.

(** A first page whose [bbox] starts at the left or at the lower edge of the
    page (as the box of the whole page does) fails [margin], whatever else
    is on it. *)
Theorem margin_fails_at_page_edge (f : pdf_file) (page : plumber_page)
  (rest : list plumber_page) (log : list event)
  (x0 y0 x1 y1 : float) (d : dict pyval) :
  pdfplumber_pages f = Return (page :: rest) ->
  bbox page = (x0, y0, x1, y1) ->
  x0 = 0%float \/ y0 = 0%float ->
  fst (check_formatting f log) = Return d ->
  dict_get "margin" d = Some (PStr "fail").
Proof.
  intros Hp Hbox Hedge Hd.
  rewrite (check_formatting_on_page f page rest log Hp) in Hd.
  injection Hd as <-. destruct (chars page) as [cs | e]; [| reflexivity].
  cbn [dict_get String.eqb Ascii.eqb Bool.eqb]. f_equal.
  unfold margins. rewrite Hbox. cbn [forallb].
  destruct Hedge as [-> | ->].
  - reflexivity.
  - now rewrite !andb_false_r.
Qed.

Lemma margin_fails_at_page_edge_witness :
  dict_get "margin"
    [("font_size", PStr "pass"); ("font_family", PStr "pass");
     ("margin", PStr "fail")] = Some (PStr "fail").
Proof.
  apply (margin_fails_at_page_edge (file_of_pages (Return [full_page]))
           full_page [] [] 0%float 0%float 612%float 792%float);
    try reflexivity.
  now left.
Defined.

(** Missing attributes never pass: when no character of the first page has
    a [size], [font_size] fails (the default 0 is not 12.0), and when none
    has a [fontname], [font_family] fails (the default is the empty
    name). *)
Theorem missing_attributes_fail (f : pdf_file) (page : plumber_page)
  (rest : list plumber_page) (cs : list pchar) (log : list event)
  (d : dict pyval) :
  pdfplumber_pages f = Return (page :: rest) ->
  chars page = Return cs ->
  fst (check_formatting f log) = Return d ->
  (Forall (fun c => size c = None) cs ->
   dict_get "font_size" d = Some (PStr "fail")) /\
  (Forall (fun c => fontname c = None) cs ->
   dict_get "font_family" d = Some (PStr "fail")).
Proof.
  intros Hp Hc Hd.
  rewrite (check_formatting_on_page f page rest log Hp), Hc in Hd.
  injection Hd as <-. cbn [dict_get String.eqb Ascii.eqb Bool.eqb].
  assert (Hnone : forall p : pchar -> bool,
             Forall (fun c => p c = false) cs ->
             verdict (existsb p cs) = PStr "fail").
  { intros p Hall. replace (existsb p cs) with false; [reflexivity |].
    symmetry. apply not_true_iff_false. intros H.
    apply existsb_exists in H. destruct H as (c & Hin & Hpc).
    rewrite Forall_forall in Hall. rewrite (Hall c Hin) in Hpc.
    discriminate Hpc. }
  split; intros Hall; f_equal; apply Hnone;
    apply Forall_forall; intros c Hin; rewrite Forall_forall in Hall;
    specialize (Hall c Hin).
  - unfold char_size. rewrite Hall. reflexivity.
  - unfold char_fontname. rewrite Hall. reflexivity.
Qed.

Lemma missing_attributes_fail_witness :
  (Forall (fun c => size c = None) [bare_char; bare_char] ->
   dict_get "font_size"
     [("font_size", PStr "fail"); ("font_family", PStr "fail");
      ("margin", PStr "pass")] = Some (PStr "fail")) /\
  (Forall (fun c => fontname c = None) [bare_char; bare_char] ->
   dict_get "font_family"
     [("font_size", PStr "fail"); ("font_family", PStr "fail");
      ("margin", PStr "pass")] = Some (PStr "fail")).
Proof.
  apply (missing_attributes_fail
           (file_of_pages (Return [letter_page [bare_char; bare_char]]))
           (letter_page [bare_char; bare_char]) [] [bare_char; bare_char] []);
    reflexivity.
Defined.

(** ** Section Detector: where the pages of a section lie *)

Lemma doc_lines_from (doc : list string) : doc_lines doc = lines_from 0 doc.
Proof. reflexivity. Qed.

Lemma lines_from_cons (a : nat) (text : string) (doc : list string) :
  lines_from a (text :: doc) =
  map (pair a) (split newline text) ++ lines_from (S a) doc.
Proof. reflexivity. Qed.

Lemma lines_from_in (doc : list string) (a i : nat) (line : string) :
  In (i, line) (lines_from a doc) ->
  (a <= i < a + List.length doc)%nat /\
  exists text, In text doc /\ In line (split newline text).
Proof.
  revert a. induction doc as [| text doc IH]; intros a; [intros [] |].
  rewrite lines_from_cons. intros Hin. apply in_app_or in Hin.
  destruct Hin as [Hin | Hin].
  - apply in_map_iff in Hin. destruct Hin as (l & [= <- <-] & Hl).
    split; [cbn; lia |]. exists text. split; [now left | exact Hl].
  - destruct (IH _ Hin) as (Hi & t & Ht & Hl).
    split; [cbn; lia |]. exists t. split; [now right | exact Hl].
Qed.

Lemma StronglySorted_app {A : Type} (R : A -> A -> Prop) (l1 l2 : list A) :
  StronglySorted R l1 -> StronglySorted R l2 ->
  (forall x y, In x l1 -> In y l2 -> R x y) ->
  StronglySorted R (l1 ++ l2).
Proof.
  intros H1 H2 H12. induction H1 as [| x l1 Hs IH Hx]; [exact H2 |].
  cbn. constructor.
  - apply IH. intros a b Ha Hb. apply H12; [now right | exact Hb].
  - apply Forall_app. split; [exact Hx |].
    apply Forall_forall. intros y Hy. apply H12; [now left | exact Hy].
Qed.

Lemma StronglySorted_snoc {A : Type} (R : A -> A -> Prop) (l : list A)
  (x : A) :
  StronglySorted R (l ++ [x]) ->
  StronglySorted R l /\ forall y, In y l -> R y x.
Proof.
  induction l as [| a l IH]; cbn; intros H.
  - split; [constructor | intros y []].
  - apply StronglySorted_inv in H. destruct H as [Hs Ha].
    destruct (IH Hs) as [Hl Hx]. split.
    + constructor; [exact Hl |]. apply Forall_app in Ha. tauto.
    + intros y [<- | Hy]; [| now apply Hx].
      apply Forall_app in Ha. destruct Ha as [_ Ha].
      now apply Forall_inv in Ha.
Qed.

Lemma lines_from_in_page_order (doc : list string) (a : nat) :
  in_page_order (lines_from a doc).
Proof.
  unfold in_page_order. revert a.
  induction doc as [| text doc IH]; intros a; [constructor |].
  rewrite lines_from_cons. apply StronglySorted_app.
  - induction (split newline text) as [| l ls IHl]; cbn; constructor.
    + exact IHl.
    + apply Forall_forall. intros y Hy. apply in_map_iff in Hy.
      destruct Hy as (l' & <- & _). cbn. lia.
  - apply IH.
  - intros [i l] [j l'] Hx Hy. apply in_map_iff in Hx.
    destruct Hx as (l0 & [= <- <-] & _).
    apply lines_from_in in Hy. cbn. lia.
Qed.

Lemma dict_get_in {V : Type} (k : string) (v : V) (d : dict V) :
  dict_get k d = Some v -> In (k, v) d.
Proof.
  induction d as [| [k' v'] d IH]; cbn; [discriminate |].
  destruct (String.eqb k k') eqn:E.
  - apply String.eqb_eq in E. intros [= ->]. subst. now left.
  - intros H. right. now apply IH.
Qed.

Lemma in_dict_set {V : Type} (k s : string) (v w : V) (d : dict V) :
  In (s, w) (dict_set k v d) -> (s = k /\ w = v) \/ In (s, w) d.
Proof.
  induction d as [| [k' v'] d IH]; cbn.
  - intros [[= <- <-] | []]. now left.
  - destruct (String.eqb k k') eqn:E; cbn.
    + intros [[= <- <-] | H]; [now left | right; now right].
    + intros [H | H]; [right; now left |].
      destruct (IH H) as [H' | H']; [now left | right; now right].
Qed.

Lemma in_dict_append (k s : string) (i : nat) (l : list nat)
  (d : dict (list nat)) :
  In (s, l) (dict_append k i d) ->
  (s = k /\
   l = match dict_get k d with Some l0 => l0 ++ [i] | None => [i] end) \/
  In (s, l) d.
Proof.
  unfold dict_append. destruct (dict_get k d) as [l0 |] eqn:Hget; intros H;
    apply in_dict_set in H; tauto.
Qed.

Lemma dict_get_keys_none {V : Type} (k : string) (d : dict V) :
  ~ In k (dict_keys d) -> dict_get k d = None.
Proof.
  intros Hn. destruct (dict_get k d) as [v |] eqn:E; [| reflexivity].
  exfalso. apply Hn. apply dict_mem_keys. unfold dict_mem. now rewrite E.
Qed.

Lemma in_dict_keys {V : Type} (k : string) (v : V) (d : dict V) :
  In (k, v) d -> In k (dict_keys d).
Proof. intros H. unfold dict_keys. now apply (in_map fst) in H. Qed.

(** The scan keeps [scan_invariant] along lines in page order. *)
Lemma scan_lines_invariant (ls : list (nat * string)) :
  in_page_order ls -> scan_invariant ls (scan_lines ls ([], [])).
Proof.
  unfold in_page_order.
  induction ls as [| [i line] ls IH] using rev_ind; intros Hsorted.
  - split; [intros sec p [=] | intros sec l []].
  - apply StronglySorted_snoc in Hsorted. destruct Hsorted as [Hs Hle].
    specialize (IH Hs). destruct IH as [IHa IHb].
    destruct (scan_lines_keys ls) as [Hks Hkp].
    rewrite scan_lines_snoc, scan_line_cases. rewrite Hks.
    set (st := scan_lines ls ([], [])) in *.
    assert (Hstart_le : forall sec p, dict_get sec (fst st) = Some p ->
                                      (p <= i)%nat).
    { intros sec p Hp. destruct (IHa sec p Hp) as [(l0 & Hin & _) _].
      exact (Hle _ Hin). }
    destruct (registers (discovered ls) line) eqn:Hreg.
    + (* the line registers a new section *)
      apply registers_true in Hreg. destruct Hreg as (Hh & Hne & Hnew).
      unfold scan_invariant. cbn [fst snd]. split.
      * intros sec p Hp.
        destruct (string_dec sec (normalized_name line)) as [-> | Hsec].
        -- rewrite dict_get_set_eq in Hp. injection Hp as <-. split.
           ++ exists line. split; [apply in_or_app; right; now left |].
              now split.
           ++ intros i' line' Hin Hh' Hn'. apply in_app_or in Hin.
              destruct Hin as [Hin | [[= <- <-] | []]]; [| lia].
              exfalso. apply Hnew. rewrite <- Hn'.
              apply (discovered_complete ls i' line' Hin Hh').
              now rewrite Hn'.
        -- rewrite dict_get_set_neq in Hp by exact Hsec.
           destruct (IHa sec p Hp) as [(l0 & Hin & Hl0) Hmin]. split.
           ++ exists l0. split; [apply in_or_app; now left | exact Hl0].
           ++ intros i' line' Hin' Hh' Hn'. apply in_app_or in Hin'.
              destruct Hin' as [Hin' | [[= <- <-] | []]];
                [now apply (Hmin i' line') | congruence].
      * intros sec l Hin. apply in_dict_append in Hin.
        destruct Hin as [[-> ->] | Hin].
        -- rewrite (dict_get_keys_none (normalized_name line) (snd st))
             by (rewrite Hkp; exact Hnew).
           exists i. rewrite dict_get_set_eq.
           split; [reflexivity |]. split; [now left |].
           intros j [<- | []]. split; [lia |].
           rewrite map_app. apply in_or_app. right. now left.
        -- destruct (IHb sec l Hin) as (p & Hp & Hpl & Hj).
           exists p. split; [| split; [exact Hpl |]].
           ++ rewrite dict_get_set_neq; [exact Hp |].
              intros ->. apply Hnew. rewrite <- Hkp.
              exact (in_dict_keys _ _ _ Hin).
           ++ intros j Hjl. destruct (Hj j Hjl) as [Hpj Hjin].
              split; [exact Hpj |]. rewrite map_app. apply in_or_app.
              now left.
    + (* no registration: the registered sections stay *)
      assert (Ha : forall sec p,
                 dict_get sec (fst st) = Some p ->
                 (exists l0, In (p, l0) (ls ++ [(i, line)]) /\
                             is_heading l0 = true /\
                             normalized_name l0 = sec) /\
                 (forall i' line', In (i', line') (ls ++ [(i, line)]) ->
                                   is_heading line' = true ->
                                   normalized_name line' = sec ->
                                   (p <= i')%nat)).
      { intros sec p Hp. destruct (IHa sec p Hp) as [(l0 & Hin & Hl0) Hmin].
        split.
        - exists l0. split; [apply in_or_app; now left | exact Hl0].
        - intros i' line' Hin' Hh' Hn'. apply in_app_or in Hin'.
          destruct Hin' as [Hin' | [[= <- <-] | []]];
            [now apply (Hmin i' line') | exact (Hstart_le sec p Hp)]. }
      assert (Hb : forall sec l,
                 In (sec, l) (snd st) ->
                 exists p, dict_get sec (fst st) = Some p /\ In p l /\
                           forall j, In j l ->
                                     (p <= j)%nat /\
                                     In j (map fst (ls ++ [(i, line)]))).
      { intros sec l Hin. destruct (IHb sec l Hin) as (p & Hp & Hpl & Hj).
        exists p. split; [exact Hp |]. split; [exact Hpl |].
        intros j Hjl. destruct (Hj j Hjl) as [Hpj Hjin].
        split; [exact Hpj |]. rewrite map_app. apply in_or_app. now left. }
      destruct (is_heading line); [now split |].
      destruct (dict_truthy (fst st)) eqn:Ht; [| now split].
      unfold scan_invariant. cbn [fst snd]. split; [exact Ha |].
      intros sec l Hin. apply in_dict_append in Hin.
      destruct Hin as [[-> ->] | Hin]; [| now apply Hb].
      assert (Hk : In (dict_last_key (fst st)) (dict_keys (snd st))).
      { rewrite Hkp, <- Hks. unfold dict_last_key.
        destruct (dict_keys (fst st)) as [| n ns] eqn:Hd.
        - apply dict_truthy_keys in Hd. congruence.
        - destruct (exists_last (l := n :: ns)) as (l' & a & Hl);
            [discriminate |].
          rewrite Hl, last_last. apply in_or_app. right. now left. }
      apply dict_mem_keys in Hk. unfold dict_mem in Hk.
      destruct (dict_get (dict_last_key (fst st)) (snd st)) as [l1 |] eqn:Hg;
        [| discriminate Hk].
      destruct (Hb _ _ (dict_get_in _ _ _ Hg)) as (p & Hp & Hpl & Hj).
      exists p. split; [exact Hp |]. split; [apply in_or_app; now left |].
      intros j Hjl. apply in_app_or in Hjl.
      destruct Hjl as [Hjl | [<- | []]]; [now apply Hj |].
      split; [exact (Hstart_le _ _ Hp) |].
      rewrite map_app. apply in_or_app. right. now left.
Qed.

Lemma in_insert_sorted (j n : nat) (l : list nat) :
  In j (insert_sorted n l) <-> j = n \/ In j l.
Proof.
  induction l as [| m l IH]; cbn [insert_sorted].
  - cbn. split; intros [H | []]; left; congruence.
  - destruct (n <=? m)%nat.
    + cbn. split; intros [H | H]; try (right; exact H); left; congruence.
    + cbn [In]. rewrite IH. tauto.
Qed.

Lemma in_sorted (j : nat) (l : list nat) : In j (sorted l) <-> In j l.
Proof.
  unfold sorted. induction l as [| n l IH]; cbn [fold_right]; [tauto |].
  rewrite in_insert_sorted, IH. cbn. split; intros [H | H];
    try (right; exact H); left; congruence.
Qed.

Lemma in_distinct_pages (j : nat) (l : list nat) :
  In j (sorted (set_of l)) <-> In j l.
Proof. unfold set_of. now rewrite in_sorted, nodup_In. Qed.

Lemma detected_sections_in (doc : list string) (sec : string)
  (pages : list nat) :
  In (sec, pages) (detected_sections doc) ->
  exists l, In (sec, l) (snd (scan_document doc)) /\
            pages = sorted (set_of l).
Proof.
  unfold detected_sections, distinct_pages. intros Hin.
  apply in_map_iff in Hin. destruct Hin as ([s l] & [= <- <-] & Hin).
  now exists l.
Qed.

Lemma scan_document_invariant (doc : list string) :
  scan_invariant (doc_lines doc) (scan_document doc).
Proof.
  rewrite scan_document_lines. apply scan_lines_invariant.
  rewrite doc_lines_from. apply lines_from_in_page_order.
Qed.

(** The pages of a detected section begin with the page of the first
    heading line that has the section's name: that page is counted, and no
    counted page lies before it or outside the document. *)
Theorem section_starts_at_first_heading (doc : list string) (sec : string)
  (pages : list nat) :
  In (sec, pages) (detected_sections doc) ->
  exists p line,
    In (p, line) (doc_lines doc) /\ is_heading line = true /\
    normalized_name line = sec /\
    (forall i line', In (i, line') (doc_lines doc) ->
                     is_heading line' = true ->
                     normalized_name line' = sec -> (p <= i)%nat) /\
    In p pages /\
    forall j, In j pages -> (p <= j < List.length doc)%nat.
Proof.
  intros Hin. destruct (detected_sections_in doc sec pages Hin) as (l & Hl & ->).
  destruct (scan_document_invariant doc) as [Ha Hb].
  destruct (Hb sec l Hl) as (p & Hp & Hpl & Hj).
  destruct (Ha sec p Hp) as [(line & Hline & Hh & Hn) Hmin].
  exists p, line.
  split; [exact Hline |]. split; [exact Hh |]. split; [exact Hn |].
  split; [exact Hmin |].
  split; [exact (proj2 (in_distinct_pages p l) Hpl) |].
  intros j Hjp. apply (proj1 (in_distinct_pages j l)) in Hjp.
  destruct (Hj j Hjp) as [Hpj Hjin]. split; [exact Hpj |].
  apply in_map_iff in Hjin. destruct Hjin as ([j' l'] & <- & Hjl).
  rewrite doc_lines_from in Hjl. apply lines_from_in in Hjl. cbn. lia.
Qed.

Lemma section_starts_at_first_heading_witness :
  exists p line,
    In (p, line) (doc_lines interleaved_doc) /\ is_heading line = true /\
    normalized_name line = "skills" /\
    (forall i line', In (i, line') (doc_lines interleaved_doc) ->
                     is_heading line' = true ->
                     normalized_name line' = "skills" -> (p <= i)%nat) /\
    In p [1; 3]%nat /\
    forall j, In j [1; 3]%nat -> (p <= j < 4)%nat.
Proof.
  apply (section_starts_at_first_heading interleaved_doc "skills" [1; 3]%nat).
  right. now left.
Defined.

Lemma fold_emit_ints (limits : option (dict Z)) (sections : dict (list nat))
  (result : dict pyval) (k : string) (n : Z) :
  In (k, PInt n) (fold_left (emit_section limits) sections result) ->
  In (k, PInt n) result \/
  exists sec pages, In (sec, pages) sections /\
                    n = Z.of_nat (List.length pages).
Proof.
  revert result. induction sections as [| [sec pages] sections IH];
    intros result; cbn [fold_left]; [now left |].
  intros Hin. destruct (IH _ Hin) as [H | (s & ps & Hs & Hn)].
  - unfold emit_section in H. apply in_dict_set in H.
    destruct H as [[_ [=]] | H]. apply in_dict_set in H.
    destruct H as [[_ [= ->]] | H]; [| now left].
    right. exists sec, pages. split; [now left | reflexivity].
  - right. exists s, ps. split; [now right | exact Hn].
Qed.

(** Every page count in the detector's result lies between 1 and the number
    of pages of the document. *)
Theorem page_counts_within_document (f : pdf_file) (doc : list string)
  (limits : option (dict Z)) (log : list event) (result : dict pyval)
  (key : string) (n : Z) :
  fitz_texts f = Return doc ->
  fst (detect_sections_dynamic f limits log) = Return result ->
  dict_get key result = Some (PInt n) ->
  (1 <= n <= Z.of_nat (List.length doc))%Z.
Proof.
  intros Hdoc Hres Hget.
  rewrite detect_sections_dynamic_run, Hdoc in Hres. injection Hres as <-.
  apply dict_get_in in Hget. unfold build_result in Hget.
  apply fold_emit_ints in Hget. destruct Hget as [[] | (sec & pages & Hin & ->)].
  destruct (section_starts_at_first_heading doc sec pages Hin)
    as (p & _ & _ & _ & _ & _ & Hp & Hrange).
  destruct (detected_sections_in doc sec pages Hin) as (l & _ & ->).
  rewrite sorted_length in *. unfold set_of in *.
  assert (Hle : (List.length (nodup Nat.eq_dec l)
                 <= List.length (seq 0 (List.length doc)))%nat).
  { apply NoDup_incl_length; [apply NoDup_nodup |].
    intros j Hj. apply in_seq.
    assert (Hj' : In j (sorted (nodup Nat.eq_dec l))) by now apply in_sorted.
    specialize (Hrange j Hj'). lia. }
  rewrite length_seq in Hle.
  apply in_sorted in Hp.
  destruct (nodup Nat.eq_dec l) as [| a r]; [destruct Hp |]. cbn in *. lia.
Qed.

Lemma page_counts_within_document_witness :
  (1 <= 3 <= Z.of_nat (List.length
                         (example_doc "body one" "body two" "body three")))%Z.
Proof.
  apply (page_counts_within_document
           (file_of_texts (example_doc "body one" "body two" "body three"))
           (example_doc "body one" "body two" "body three")
           example_limits []
           [("summary_pages", PInt 3); ("summary", PStr "fail");
            ("skills_pages", PInt 2); ("skills", PStr "fail")]
           "summary_pages" 3%Z); reflexivity.
Defined.

(** A document none of whose pages has a heading line (a document without
    pages among them) has an empty content, whatever the limits. *)
Theorem no_headings_empty_content (f : pdf_file) (doc : list string)
  (limits : option (dict Z)) (log : list event) :
  fitz_texts f = Return doc ->
  Forall (fun text => is_body_page text = true) doc ->
  detect_sections_dynamic f limits log = (Return [], log ++ [Opened PyMuPDF]).
Proof.
  intros Hdoc Hbody. rewrite detect_sections_dynamic_run, Hdoc.
  rewrite no_heading_no_content; [reflexivity |].
  intros i line Hin. rewrite doc_lines_from in Hin.
  apply lines_from_in in Hin. destruct Hin as (_ & text & Ht & Hl).
  rewrite Forall_forall in Hbody. specialize (Hbody text Ht).
  unfold is_body_page in Hbody. rewrite forallb_forall in Hbody.
  apply negb_true_iff. exact (Hbody line Hl).
Qed.

Lemma no_headings_empty_content_witness :
  detect_sections_dynamic (file_of_texts plain_doc) example_limits [] =
  (Return [], [Opened PyMuPDF]).
Proof.
  apply (no_headings_empty_content (file_of_texts plain_doc) plain_doc
           example_limits []); [reflexivity |].
  repeat constructor.
Defined.

(** ** Section Detector: limits that are not applied *)

Lemma fold_left_pointwise_in {A B : Type} (f g : A -> B -> A) (l : list B)
  (a : A) :
  (forall a b, In b l -> f a b = g a b) -> fold_left f l a = fold_left g l a.
Proof.
  revert a. induction l as [| b l IH]; intros a Hfg; cbn; [reflexivity |].
  rewrite Hfg by now left. apply IH. intros a' b' Hb'. apply Hfg. now right.
Qed.

(** The result depends on the limits through the limits of the detected
    sections only. *)
Lemma build_result_limits (l1 l2 : option (dict Z))
  (sections : dict (list nat)) :
  (forall sec, In sec (dict_keys sections) -> limit_of l1 sec = limit_of l2 sec)
  -> build_result l1 sections = build_result l2 sections.
Proof.
  intros Hsame. unfold build_result. apply fold_left_pointwise_in.
  intros result [sec pages] Hin. unfold emit_section, section_status.
  rewrite (Hsame sec); [reflexivity |]. exact (in_dict_keys _ _ _ Hin).
Qed.

Lemma limit_of_set_other (k sec : string) (v : Z) (d : dict Z) :
  sec <> k -> limit_of (Some (dict_set k v d)) sec = limit_of (Some d) sec.
Proof.
  intros Hne. unfold limit_of.
  replace (dict_truthy (dict_set k v d)) with true
    by (destruct d as [| [k' v'] d]; cbn; [| destruct (String.eqb k k')];
        reflexivity).
  rewrite dict_get_set_neq by exact Hne. now destruct d.
Qed.

(** A limit for a name that no heading line of the document has is not
    used: adding it to the limits, or changing it, leaves the result as it
    is. *)
Theorem unused_limit_ignored (f : pdf_file) (doc : list string)
  (limits : dict Z) (name : string) (limit : Z) (log : list event) :
  fitz_texts f = Return doc ->
  (forall i line, In (i, line) (doc_lines doc) -> is_heading line = true ->
                  normalized_name line <> name) ->
  detect_sections_dynamic f (Some (dict_set name limit limits)) log =
  detect_sections_dynamic f (Some limits) log.
Proof.
  intros Hdoc Hno. rewrite !detect_sections_dynamic_run, Hdoc.
  do 2 f_equal. apply build_result_limits. intros sec Hsec.
  apply limit_of_set_other. intros ->.
  rewrite detected_sections_keys in Hsec.
  destruct (discovered_sound _ _ Hsec) as (i & line & Hin & Hh & _ & Heq).
  exact (Hno i line Hin Hh (eq_sym Heq)).
Qed.

Lemma unused_limit_ignored_witness :
  detect_sections_dynamic (file_of_texts boundary_doc)
    (Some (dict_set "skills" 1%Z [("summary", 2%Z)])) [] =
  detect_sections_dynamic (file_of_texts boundary_doc)
    (Some [("summary", 2%Z)]) [].
Proof.
  apply (unused_limit_ignored (file_of_texts boundary_doc) boundary_doc
           [("summary", 2%Z)] "skills" 1%Z []); [reflexivity |].
  intros i line Hin Hh. vm_compute in Hin.
  destruct Hin as [[= <- <-] | [[= <- <-] | []]]; [discriminate |].
  discriminate Hh.
Defined.

Lemma dict_get_filter_key {V : Type} (p : string -> bool) (k : string)
  (d : dict V) :
  p k = true -> dict_get k (filter (fun kv => p (fst kv)) d) = dict_get k d.
Proof.
  intros Hp. induction d as [| [k' v'] d IH]; cbn; [reflexivity |].
  destruct (p k') eqn:Hk'; cbn.
  - destruct (String.eqb k k'); [reflexivity | exact IH].
  - destruct (String.eqb k k') eqn:E; [| exact IH].
    apply String.eqb_eq in E. congruence.
Qed.

(** The limits are looked up under the section names, which are made of the
    letters [a]..[z] and blanks: an entry whose key has any other character
    (an underscore, a capital, a digit) is never applied, and the result is
    the same without such entries. *)
Theorem malformed_limit_keys_ignored (f : pdf_file) (limits : dict Z)
  (log : list event) :
  detect_sections_dynamic f (Some limits) log =
  detect_sections_dynamic f (Some (applicable_limits limits)) log.
Proof.
  rewrite !detect_sections_dynamic_run.
  destruct (fitz_texts f) as [doc | e]; [| reflexivity].
  do 2 f_equal. apply build_result_limits. intros sec Hsec.
  rewrite detected_sections_keys in Hsec. apply discovered_chars in Hsec.
  unfold limit_of, applicable_limits.
  pose proof (dict_get_filter_key (V := Z) (string_forall lower_or_blank)
                sec limits Hsec) as Hget.
  rewrite Hget.
  destruct (filter _ limits) eqn:Hf; destruct limits; cbn [dict_truthy];
    try reflexivity.
  now rewrite <- Hget.
Qed.

(** With the "Report Template" preset a section headed "EXECUTIVE SUMMARY"
    is named "executive summary"; the preset's key "executive_summary" is
    not its name, so the section is reported "n/a" although it exceeds the
    limit of the preset. *)
Example report_template_underscore :
  applicable_limits report_template =
  [("methodology", 3%Z); ("results", 5%Z); ("appendix", 10%Z)] /\
  fst (detect_sections_dynamic (file_of_texts report_doc)
                               (Some report_template) []) =
  Return [("executive_summary_pages", PInt 3);
          ("executive_summary", PStr "n/a")].
Proof. split; reflexivity. Qed.

(** ** Section Detector: the entries of the result *)

Lemma append_neq_self (s t : string) :
  t <> "" -> (s ++ t)%string <> s.
Proof.
  intros Ht H. apply (f_equal String.length) in H.
  rewrite length_append in H. destruct t; [congruence | cbn in H; lia].
Qed.

(** For a detected section the result holds, under the section's
    "<key>_pages", the number of distinct pages attributed to the section,
    unless that key is also the status key of a section discovered later. *)
Theorem page_count_entry (f : pdf_file) (doc : list string)
  (limits : option (dict Z)) (log : list event)
  (earlier later : dict (list nat)) (sec : string) (pages : list nat) :
  fitz_texts f = Return doc ->
  detected_sections doc = earlier ++ (sec, pages) :: later ->
  (forall sec', In sec' (dict_keys later) ->
                status_key_of sec' <> page_key_of sec) ->
  exists result attributed,
    fst (detect_sections_dynamic f limits log) = Return result /\
    In (sec, attributed) (snd (scan_document doc)) /\
    dict_get (page_key_of sec) result =
    Some (PInt (Z.of_nat (List.length (nodup Nat.eq_dec attributed)))).
Proof.
  intros Hdoc Hsplit Hfree.
  assert (Hin : In (sec, pages) (detected_sections doc)).
  { rewrite Hsplit. apply in_or_app. right. now left. }
  destruct (page_count_distinct doc sec pages Hin) as (l & Hl & Hlen).
  rewrite detect_sections_dynamic_run, Hdoc. cbn [fst].
  eexists. exists l. split; [reflexivity |]. split; [exact Hl |].
  rewrite <- Hlen, Hsplit.
  change (earlier ++ (sec, pages) :: later)
    with (earlier ++ [(sec, pages)] ++ later).
  rewrite app_assoc, build_result_app, fold_emit_get.
  - rewrite build_result_app. cbn [fold_left emit_section].
    rewrite dict_get_set_neq.
    + apply dict_get_set_eq.
    + unfold page_key_of, status_key_of. apply append_neq_self. discriminate.
  - intros sec' Hsec'. split; [| now apply Hfree].
    intros Heq.
    pose proof (detected_sections_keys doc) as Hkeys.
    pose proof (discovered_NoDup (doc_lines doc)) as Hnd.
    rewrite <- Hkeys, Hsplit in Hnd. unfold dict_keys in Hnd.
    rewrite map_app in Hnd. cbn [map fst] in Hnd.
    assert (Hc : forall s, In s (dict_keys (detected_sections doc)) ->
                           string_forall lower_or_blank s = true).
    { intros s Hs. rewrite Hkeys in Hs. exact (discovered_chars _ _ Hs). }
    apply page_key_inj in Heq.
    + subst sec'. apply NoDup_remove_2 in Hnd. apply Hnd.
      apply in_or_app. now right.
    + apply Hc. rewrite Hsplit. unfold dict_keys. rewrite map_app.
      apply in_or_app. right. now right.
    + apply Hc. exact (in_dict_keys _ _ _ Hin).
Qed.

Lemma page_count_entry_witness :
  exists result attributed,
    fst (detect_sections_dynamic (file_of_texts interleaved_doc) None [])
    = Return result /\
    In ("skills", attributed) (snd (scan_document interleaved_doc)) /\
    dict_get "skills_pages" result =
    Some (PInt (Z.of_nat (List.length (nodup Nat.eq_dec attributed)))).
Proof.
  apply (page_count_entry (file_of_texts interleaved_doc) interleaved_doc
           None [] [("summary", [0%nat])] [] "skills" [1; 3]%nat);
    [reflexivity | reflexivity |].
  intros sec' [].
Defined.

Lemma string_forall_append (p : ascii -> bool) (s t : string) :
  string_forall p (s ++ t) = string_forall p s && string_forall p t.
Proof.
  induction s as [| c s IH]; cbn; [reflexivity |].
  now rewrite IH, andb_assoc.
Qed.

Lemma eqb_blank_code (c : ascii) :
  Ascii.eqb c " " = ((code c =? 32)%N).
Proof.
  destruct (Ascii.eqb c " ") eqn:E.
  - apply Ascii.eqb_eq in E. subst c. reflexivity.
  - symmetry. apply N.eqb_neq. intros Hc. apply Ascii.eqb_neq in E.
    apply E. rewrite <- (ascii_N_embedding c). unfold code in Hc.
    now rewrite Hc.
Qed.

Lemma status_key_chars (sec : string) :
  string_forall lower_or_blank sec = true ->
  string_forall key_char (status_key_of sec) = true.
Proof.
  unfold status_key_of. induction sec as [| c sec IH]; cbn; [reflexivity |].
  intros H. apply andb_true_iff in H. destruct H as [Hc Hs].
  rewrite (IH Hs), andb_true_r. rewrite eqb_blank_code.
  unfold lower_or_blank in Hc. unfold key_char.
  destruct (code c =? 32)%N; [reflexivity |].
  rewrite orb_false_r in Hc. now rewrite Hc.
Qed.

(** The keys of a content mapping are non-empty and made of the letters
    [a]..[z] and the underscore. *)
Theorem content_keys_charset (f : pdf_file) (doc : list string)
  (limits : option (dict Z)) (log : list event) (result : dict pyval)
  (key : string) :
  fitz_texts f = Return doc ->
  fst (detect_sections_dynamic f limits log) = Return result ->
  In key (dict_keys result) ->
  key <> "" /\ string_forall key_char key = true.
Proof.
  intros Hdoc Hres Hkey.
  rewrite detect_sections_dynamic_run, Hdoc in Hres. injection Hres as <-.
  unfold build_result in Hkey. apply fold_emit_keys in Hkey.
  destruct Hkey as [[] | (sec & Hsec & Hkey)].
  rewrite detected_sections_keys in Hsec.
  pose proof (discovered_chars _ _ Hsec) as Hchars.
  destruct (discovered_sound _ _ Hsec) as (i & line & _ & _ & Hne & Heq).
  rewrite <- Heq in Hne.
  assert (Hne' : status_key_of sec <> "").
  { unfold status_key_of. destruct sec; [congruence | discriminate]. }
  destruct Hkey as [-> | ->].
  - split.
    + unfold page_key_of. fold (status_key_of sec).
      destruct (status_key_of sec); [congruence | discriminate].
    + unfold page_key_of. fold (status_key_of sec).
      rewrite string_forall_append, (status_key_chars sec Hchars).
      reflexivity.
  - split; [exact Hne' | exact (status_key_chars sec Hchars)].
Qed.

Lemma content_keys_charset_witness :
  "work_experience_pages" <> "" /\
  string_forall key_char "work_experience_pages" = true.
Proof.
  apply (content_keys_charset (file_of_texts headings_doc) headings_doc
           None []
           [("work_experience_pages", PInt 1); ("work_experience", PStr "n/a");
            ("page__of_pages", PInt 1); ("page__of", PStr "n/a")]
           "work_experience_pages"); try reflexivity.
  now left.
Defined.

(** * The summary of the application *)

(** ** The reports of [analyze_pdf] *)

(** The two shapes of a report. *)
Lemma analyze_pdf_reports (f : pdf_file) (limits : option (dict Z))
  (log : list event) (report : dict (dict pyval)) :
  fst (analyze_pdf f limits log) = Return report ->
  (pypdf2_reader f <> Return tt /\
   report = [("format", [("file_type", PStr "fail")]); ("content", [])]) \/
  exists font_size font_family margin doc,
    pypdf2_reader f = Return tt /\
    fst (check_formatting f (log ++ [Opened PyPDF2])) =
    Return [("font_size", font_size); ("font_family", font_family);
            ("margin", margin)] /\
    (font_size = PStr "pass" \/ font_size = PStr "fail") /\
    (font_family = PStr "pass" \/ font_family = PStr "fail") /\
    (margin = PStr "pass" \/ margin = PStr "fail") /\
    fitz_texts f = Return doc /\
    report =
    [("format", [("file_type", PStr "pass"); ("font_size", font_size);
                 ("font_family", font_family); ("margin", margin)]);
     ("content", build_result limits (detected_sections doc))].
Proof.
  unfold analyze_pdf, bind. rewrite is_valid_pdf_run.
  destruct (pypdf2_reader f) as [[] | e] eqn:Hreader; cbn [negb].
  - destruct (check_formatting_three_verdicts f (log ++ [Opened PyPDF2]))
      as (a & b & c & Hfmt & Ha & Hb & Hc).
    rewrite Hfmt, detect_sections_dynamic_run.
    destruct (fitz_texts f) as [doc | e] eqn:Hdoc; [| discriminate].
    intros [= <-]. right. exists a, b, c, doc.
    repeat (split; [first [reflexivity | assumption] |]).
    unfold empty_report, dict_modify.
    cbn -[build_result detected_sections].
    rewrite dict_update_fresh; [reflexivity | apply build_result_NoDup |].
    intros k _ [].
  - intros [= <-]. left. split; [discriminate | reflexivity].
Qed.

(** ** The counts of the summary *)

Lemma count_failures_dict (d : dict pyval) :
  count_failures (obj_of_dict d) = fail_names d.
Proof.
  unfold obj_of_dict, fail_names.
  induction d as [| [k v] d IH]; [reflexivity |].
  cbn [map flat_map fst snd]. rewrite <- IH.
  destruct v; reflexivity.
Qed.

Lemma count_passes_dict (d : dict pyval) :
  count_passes (obj_of_dict d) = pass_count d.
Proof.
  unfold obj_of_dict, pass_count.
  induction d as [| [k v] d IH]; [reflexivity |].
  cbn [map fold_right fst snd]. rewrite <- IH.
  destruct v; reflexivity.
Qed.

Lemma count_failures_report (report : dict (dict pyval)) :
  count_failures (obj_of_report report) =
  flat_map (fun kv => fail_names (snd kv)) report.
Proof.
  unfold obj_of_report.
  induction report as [| [k d] report IH]; [reflexivity |].
  cbn [map flat_map fst snd]. rewrite <- IH, <- count_failures_dict.
  reflexivity.
Qed.

Lemma count_passes_report (report : dict (dict pyval)) :
  count_passes (obj_of_report report) =
  fold_right (fun kv n => (pass_count (snd kv) + n)%Z) 0%Z report.
Proof.
  unfold obj_of_report.
  induction report as [| [k d] report IH]; [reflexivity |].
  cbn [map fold_right fst snd]. rewrite <- IH, <- count_passes_dict.
  reflexivity.
Qed.

Lemma section_fails_report (section : string) (report : dict (dict pyval)) :
  section_fails section (obj_of_report report) =
  match dict_get section report with
  | Some d => fail_names d
  | None => []
  end.
Proof.
  unfold section_fails, obj_of_report.
  assert (Hget : dict_get section
                   (map (fun kv => (fst kv, obj_of_dict (snd kv))) report) =
                 option_map obj_of_dict (dict_get section report)).
  { induction report as [| [k d] report IH]; [reflexivity |].
    cbn [map dict_get fst snd]. destruct (String.eqb section k);
      [reflexivity | exact IH]. }
  rewrite Hget. destruct (dict_get section report) as [d |]; [| reflexivity].
  cbn [option_map obj_of_dict]. unfold fail_names.
  rewrite flat_map_concat_map, map_map, <- flat_map_concat_map.
  reflexivity.
Qed.

Lemma len_nonneg {A : Type} (l : list A) : (0 <= len l)%Z.
Proof. unfold len. lia. Qed.

Lemma pass_count_nonneg (d : dict pyval) : (0 <= pass_count d)%Z.
Proof.
  unfold pass_count. induction d as [| [k v] d IH]; cbn; [lia |].
  destruct (is_str "pass" (obj_of_pyval v)); lia.
Qed.

Lemma fail_names_length (d : dict pyval) :
  (List.length (fail_names d) <= List.length d)%nat.
Proof.
  unfold fail_names. induction d as [| [k v] d IH]; cbn; [lia |].
  rewrite length_app.
  destruct (is_str "fail" (obj_of_pyval v)); cbn; lia.
Qed.

Lemma fail_names_none (d : dict pyval) :
  (forall k v, In (k, v) d -> v <> PStr "fail") -> fail_names d = [].
Proof.
  unfold fail_names. induction d as [| [k v] d IH]; intros Hno;
    [reflexivity |].
  cbn [flat_map fst snd]. rewrite IH.
  - destruct v as [n | s]; [reflexivity |]. cbn.
    destruct (String.eqb s "fail") eqn:E; [| reflexivity].
    apply String.eqb_eq in E. subst s.
    exfalso. apply (Hno k (PStr "fail")); [now left | reflexivity].
  - intros k' v' Hin. apply (Hno k'). now right.
Qed.

Lemma pass_count_none (d : dict pyval) :
  (forall k v, In (k, v) d -> v <> PStr "pass") -> pass_count d = 0%Z.
Proof.
  unfold pass_count. induction d as [| [k v] d IH]; intros Hno;
    [reflexivity |].
  cbn [fold_right fst snd]. rewrite IH.
  - destruct v as [n | s]; [reflexivity |]. cbn.
    destruct (String.eqb s "pass") eqn:E; [| reflexivity].
    apply String.eqb_eq in E. subst s.
    exfalso. apply (Hno k (PStr "pass")); [now left | reflexivity].
  - intros k' v' Hin. apply (Hno k'). now right.
Qed.

(** The four format checks are each counted once, as a pass or as an
    issue. *)
Lemma format_counts (a b c : pyval) :
  (a = PStr "pass" \/ a = PStr "fail") ->
  (b = PStr "pass" \/ b = PStr "fail") ->
  (c = PStr "pass" \/ c = PStr "fail") ->
  let format := [("file_type", PStr "pass"); ("font_size", a);
                 ("font_family", b); ("margin", c)] in
  (len (fail_names format) + pass_count format = 4)%Z.
Proof.
  intros [-> | ->] [-> | ->] [-> | ->]; reflexivity.
Qed.

(** Every report of [analyze_pdf] has at least one counted check, the file
    type, so that the compliance score of the summary is always a number;
    on a rejected file it is the only check and the only issue. *)
Theorem summary_counts_file_type (f : pdf_file) (limits : option (dict Z))
  (log : list event) (report : dict (dict pyval)) :
  fst (analyze_pdf f limits log) = Return report ->
  (1 <= total_checks (obj_of_report report))%Z /\
  (pypdf2_reader f <> Return tt ->
   count_failures (obj_of_report report) = ["File Type"] /\
   total_checks (obj_of_report report) = 1%Z).
Proof.
  intros Hrep.
  destruct (analyze_pdf_reports f limits log report Hrep)
    as [[Hrej ->] | (a & b & c & doc & Hacc & _ & Ha & Hb & Hc & _ & ->)].
  - split; [| intros _; split]; reflexivity || (cbv; discriminate).
  - split; [| intros H; congruence].
    unfold total_checks, issues_found.
    rewrite count_failures_report, count_passes_report.
    cbn [flat_map fold_right snd]. rewrite app_nil_r.
    pose proof (format_counts a b c Ha Hb Hc) as Hfmt. cbv zeta in Hfmt.
    pose proof (pass_count_nonneg (build_result limits (detected_sections doc))).
    unfold len in *. rewrite length_app. lia.
Qed.

Lemma summary_counts_file_type_witness :
  (1 <= total_checks
          (obj_of_report
             [("format", [("file_type", PStr "fail")]); ("content", [])]))%Z /\
  (pypdf2_reader corrupted_file <> Return tt ->
   count_failures
     (obj_of_report
        [("format", [("file_type", PStr "fail")]); ("content", [])])
   = ["File Type"] /\
   total_checks
     (obj_of_report
        [("format", [("file_type", PStr "fail")]); ("content", [])]) = 1%Z).
Proof.
  exact (summary_counts_file_type corrupted_file None []
           [("format", [("file_type", PStr "fail")]); ("content", [])]
           eq_refl).
Defined.

Lemma fold_emit_values (limits : option (dict Z))
  (sections : dict (list nat)) (result : dict pyval) (k : string)
  (v : pyval) :
  In (k, v) (fold_left (emit_section limits) sections result) ->
  In (k, v) result \/
  exists sec pages,
    In (sec, pages) sections /\
    (v = PInt (Z.of_nat (List.length pages)) \/
     v = PStr (section_status limits sec pages)).
Proof.
  revert result. induction sections as [| [sec pages] sections IH];
    intros result; cbn [fold_left]; [now left |].
  intros Hin. destruct (IH _ Hin) as [H | (s & ps & Hs & Hv)].
  - unfold emit_section in H. apply in_dict_set in H.
    destruct H as [[_ ->] | H].
    + right. exists sec, pages. split; [now left | now right].
    + apply in_dict_set in H. destruct H as [[_ ->] | H]; [| now left].
      right. exists sec, pages. split; [now left | now left].
  - right. exists s, ps. split; [now right | exact Hv].
Qed.

(** Sections without a limit are not checks: when no detected section has
    a limit, the summary of an accepted file counts the four format checks
    and nothing else, and no content issue is listed. *)
Theorem unlimited_sections_not_counted (f : pdf_file) (doc : list string)
  (limits : option (dict Z)) (log : list event)
  (report : dict (dict pyval)) :
  fst (analyze_pdf f limits log) = Return report ->
  pypdf2_reader f = Return tt ->
  fitz_texts f = Return doc ->
  (forall sec, In sec (dict_keys (detected_sections doc)) ->
               limit_of limits sec = None) ->
  total_checks (obj_of_report report) = 4%Z /\
  content_fails (obj_of_report report) = [].
Proof.
  intros Hrep Hacc Hdoc Hnone.
  destruct (analyze_pdf_reports f limits log report Hrep)
    as [[Hrej _] | (a & b & c & doc' & _ & _ & Ha & Hb & Hc & Hdoc' & ->)];
    [congruence |].
  assert (doc' = doc) by congruence. subst doc'.
  assert (Hvalues : forall k v,
             In (k, v) (build_result limits (detected_sections doc)) ->
             v <> PStr "fail" /\ v <> PStr "pass").
  { intros k v Hin. unfold build_result in Hin.
    apply fold_emit_values in Hin.
    destruct Hin as [[] | (sec & pages & Hsec & [-> | ->])];
      [split; discriminate |].
    unfold section_status.
    rewrite (Hnone sec (in_dict_keys _ _ _ Hsec)). split; discriminate. }
  split.
  - unfold total_checks, issues_found.
    rewrite count_failures_report, count_passes_report.
    cbn [flat_map fold_right snd]. rewrite app_nil_r.
    rewrite (fail_names_none (build_result limits (detected_sections doc)))
      by (intros k v Hin; apply (Hvalues k v Hin)).
    rewrite (pass_count_none (build_result limits (detected_sections doc)))
      by (intros k v Hin; apply (Hvalues k v Hin)).
    rewrite app_nil_r.
    pose proof (format_counts a b c Ha Hb Hc) as Hfmt. cbv zeta in Hfmt. lia.
  - unfold content_fails. rewrite section_fails_report.
    cbn [dict_get String.eqb Ascii.eqb Bool.eqb].
    apply fail_names_none. intros k v Hin. apply (Hvalues k v Hin).
Qed.

Lemma unlimited_sections_not_counted_witness :
  total_checks
    (obj_of_report
       [("format", [("file_type", PStr "pass"); ("font_size", PStr "fail");
                    ("font_family", PStr "fail"); ("margin", PStr "fail")]);
        ("content", [("executive_summary_pages", PInt 3);
                     ("executive_summary", PStr "n/a")])]) = 4%Z /\
  content_fails
    (obj_of_report
       [("format", [("file_type", PStr "pass"); ("font_size", PStr "fail");
                    ("font_family", PStr "fail"); ("margin", PStr "fail")]);
        ("content", [("executive_summary_pages", PInt 3);
                     ("executive_summary", PStr "n/a")])]) = [].
Proof.
  apply (unlimited_sections_not_counted (file_of_texts report_doc) report_doc
           (Some report_template) []); try reflexivity.
  intros sec [<- | []]. reflexivity.
Defined.

(** The issues of the summary are the format issues followed by the
    content issues; the format issues are at most four, so all of them are
    shown, and the number announced as "more issues" is the number of
    content issues beyond the first five. *)
Theorem summary_issue_lists (f : pdf_file) (limits : option (dict Z))
  (log : list event) (report : dict (dict pyval)) :
  fst (analyze_pdf f limits log) = Return report ->
  let result := obj_of_report report in
  count_failures result = format_fails result ++ content_fails result /\
  (len (format_fails result) <= 4)%Z /\
  remaining_issues result = Z.max 0 (len (content_fails result) - 5).
Proof.
  intros Hrep result.
  assert (Hshape : exists format content,
             report = [("format", format); ("content", content)] /\
             (List.length format <= 4)%nat).
  { destruct (analyze_pdf_reports f limits log report Hrep)
      as [[_ ->] | (a & b & c & doc & _ & _ & _ & _ & _ & _ & ->)];
      eexists _, _; (split; [reflexivity | cbn; lia]). }
  destruct Hshape as (format & content & -> & Hlen).
  assert (Hall : count_failures result =
                 format_fails result ++ content_fails result).
  { subst result. unfold format_fails, content_fails.
    rewrite count_failures_report, !section_fails_report.
    cbn [flat_map snd dict_get String.eqb Ascii.eqb Bool.eqb].
    now rewrite app_nil_r. }
  assert (Hff : (List.length (format_fails result) <= 4)%nat).
  { subst result. unfold format_fails. rewrite section_fails_report.
    cbn [dict_get String.eqb Ascii.eqb Bool.eqb].
    pose proof (fail_names_length format). lia. }
  split; [exact Hall |]. split; [unfold len; lia |].
  unfold remaining_issues. rewrite Hall. unfold len.
  rewrite length_app, !length_firstn. lia.
Qed.

Lemma summary_issue_lists_witness :
  exists report,
    fst (analyze_pdf (file_of_texts eight_sections_doc) zero_limits [])
    = Return report /\
    len (content_fails (obj_of_report report)) = 8%Z /\
    remaining_issues (obj_of_report report) = 3%Z.
Proof.
  eexists. split; [reflexivity |].
  destruct (summary_issue_lists (file_of_texts eight_sections_doc)
              zero_limits [] _ eq_refl) as (_ & _ & Hrem).
  split; [reflexivity |]. rewrite Hrem. reflexivity.
Defined.

(** ** Display names *)

Lemma lower_or_blank_cases (c : ascii) :
  lower_or_blank c = true ->
  lower_char (lower_char c) = c /\ lower_char (upper_char c) = c /\
  c <> "_"%char.
Proof.
  destruct c as [[] [] [] [] [] [] [] []]; intros H;
    try discriminate H; repeat split; discriminate.
Qed.

Lemma lower_title_from (b : bool) (s : string) :
  string_forall lower_or_blank s = true -> lower (title_from b s) = s.
Proof.
  revert b. induction s as [| c s IH]; intros b; cbn; [reflexivity |].
  intros H. apply andb_true_iff in H. destruct H as [Hc Hs].
  rewrite (IH _ Hs).
  destruct (lower_or_blank_cases c Hc) as (Hl & Hu & _).
  destruct b; now rewrite ?Hl, ?Hu.
Qed.

Lemma replace_underscore_back (s : string) :
  string_forall lower_or_blank s = true ->
  replace_char "_" " " (replace_char " " "_" s) = s.
Proof.
  induction s as [| c s IH]; cbn; [reflexivity |].
  intros H. apply andb_true_iff in H. destruct H as [Hc Hs].
  rewrite (IH Hs). f_equal.
  destruct (lower_or_blank_cases c Hc) as (_ & _ & Hne).
  destruct (Ascii.eqb c " ") eqn:E.
  - apply Ascii.eqb_eq in E. now subst c.
  - apply Ascii.eqb_neq in Hne. now rewrite Hne.
Qed.

(** The name shown for a section leads back to the section: replacing the
    underscores of its key by blanks gives the section's normalized name,
    and so does lowering its display name. *)
Theorem display_name_of_section (doc : list string) (sec : string)
  (pages : list nat) :
  In (sec, pages) (detected_sections doc) ->
  replace_char "_" " " (status_key_of sec) = sec /\
  lower (display_name (status_key_of sec)) = sec.
Proof.
  intros Hin.
  assert (Hchars : string_forall lower_or_blank sec = true).
  { apply (discovered_chars (doc_lines doc)).
    rewrite <- detected_sections_keys. exact (in_dict_keys _ _ _ Hin). }
  unfold display_name, status_key_of, title.
  rewrite (replace_underscore_back sec Hchars).
  split; [reflexivity | exact (lower_title_from false sec Hchars)].
Qed.

Lemma display_name_of_section_witness :
  replace_char "_" " " (status_key_of "work experience") = "work experience"
  /\ lower (display_name (status_key_of "work experience"))
     = "work experience".
Proof.
  apply (display_name_of_section headings_doc "work experience" [0%nat]).
  now left.
Defined.

Example display_name_samples :
  display_name "font_size" = "Font Size" /\
  display_name "work_experience_pages" = "Work Experience Pages" /\
  display_name "page__of" = "Page  Of".
Proof. repeat split. Qed.

(** * Further properties of the checker, continued *)

(** ** The heading pattern *)

Lemma colon_code (c : ascii) : (code c =? 58)%N = true <-> c = ":"%char.
Proof.
  split.
  - intros H. apply N.eqb_eq in H. rewrite <- (ascii_N_embedding c).
    unfold code in H. now rewrite H.
  - intros ->. reflexivity.
Qed.

Lemma heading_tail_language (seen : bool) (s : string) :
  heading_tail seen s = true <->
  exists body, s = (body ++ ":")%string /\
               string_forall heading_class body = true /\
               (seen = true \/ body <> "").
Proof.
  revert seen. induction s as [| c s IH]; intros seen.
  - cbn. split; [discriminate |].
    intros (body & Hb & _). destruct body; discriminate Hb.
  - destruct s as [| c' s'].
    + cbn [heading_tail]. rewrite andb_true_iff, colon_code. split.
      * intros [-> ->]. exists "". repeat split. now left.
      * intros (body & Hb & _ & Hseen). destruct body as [| b body].
        -- cbn in Hb. injection Hb as ->.
           destruct Hseen as [-> | H]; [now split | congruence].
        -- cbn in Hb. injection Hb as _ Hb. destruct body; discriminate Hb.
    + change (heading_tail seen (String c (String c' s')))
        with (heading_class c && heading_tail true (String c' s')).
      rewrite andb_true_iff, IH. split.
      * intros (Hc & body & Hb & Hall & _). exists (String c body).
        split; [cbn; now rewrite Hb |]. split; [cbn; now rewrite Hc |].
        right. discriminate.
      * intros (body & Hb & Hall & _). destruct body as [| b body].
        -- cbn in Hb. injection Hb as _ Hb. discriminate Hb.
        -- cbn in Hb. injection Hb as <- Hb. cbn in Hall.
           apply andb_true_iff in Hall. destruct Hall as [Hc Hall].
           split; [exact Hc |]. exists body.
           split; [exact Hb |]. split; [exact Hall | now left].
Qed.

(** The lines the heading pattern matches: a capital [A]..[Z], then one or
    more letters, white-space characters or hyphens, then a colon, and
    nothing after it. *)
Theorem heading_regex_language (s : string) :
  heading_regex s = true <->
  exists c body,
    s = String c (body ++ ":") /\ between 65 90 c = true /\
    body <> "" /\ string_forall heading_class body = true.
Proof.
  destruct s as [| c s]; cbn [heading_regex].
  - split; [discriminate | intros (c & body & H & _); discriminate H].
  - rewrite andb_true_iff, heading_tail_language. split.
    + intros (Hc & body & -> & Hall & [H | Hne]); [discriminate H |].
      now exists c, body.
    + intros (c0 & body & [= <- ->] & Hc & Hne & Hall).
      split; [exact Hc |]. exists body. split; [reflexivity |].
      split; [exact Hall | now right].
Qed.

(** ** The two stages of the aggregator *)

Lemma check_formatting_depends_on_pages (f1 f2 : pdf_file)
  (log1 log2 : list event) :
  pdfplumber_pages f1 = pdfplumber_pages f2 ->
  fst (check_formatting f1 log1) = fst (check_formatting f2 log2).
Proof.
  intros Hpages.
  unfold check_formatting, try_except, inspect_first_page, bind, tell, lift,
    ret.
  rewrite Hpages.
  destruct (pdfplumber_pages f2) as [[| page rest] | e]; cbn [first_page];
    try reflexivity.
  destruct (chars page); reflexivity.
Qed.

(** On accepted files the two stages of [analyze_pdf] do not touch each
    other's part of the report: the format mapping follows from what
    pdfplumber reports alone (not from the page texts, nor from the limits),
    and the content mapping from the page texts and the limits alone (not
    from what pdfplumber reports, even when it fails). *)
Theorem stages_do_not_interfere (f1 f2 : pdf_file)
  (l1 l2 : option (dict Z)) (log1 log2 : list event)
  (r1 r2 : dict (dict pyval)) :
  fst (analyze_pdf f1 l1 log1) = Return r1 ->
  fst (analyze_pdf f2 l2 log2) = Return r2 ->
  pypdf2_reader f1 = Return tt ->
  pypdf2_reader f2 = Return tt ->
  (pdfplumber_pages f1 = pdfplumber_pages f2 ->
   dict_get "format" r1 = dict_get "format" r2) /\
  (fitz_texts f1 = fitz_texts f2 -> l1 = l2 ->
   dict_get "content" r1 = dict_get "content" r2).
Proof.
  intros H1 H2 Hacc1 Hacc2.
  destruct (analyze_pdf_reports f1 l1 log1 r1 H1)
    as [[Hrej _] | (a1 & b1 & c1 & d1 & _ & Hf1 & _ & _ & _ & Hd1 & ->)];
    [congruence |].
  destruct (analyze_pdf_reports f2 l2 log2 r2 H2)
    as [[Hrej _] | (a2 & b2 & c2 & d2 & _ & Hf2 & _ & _ & _ & Hd2 & ->)];
    [congruence |].
  cbn [dict_get String.eqb Ascii.eqb Bool.eqb]. split.
  - intros Hpages.
    rewrite (check_formatting_depends_on_pages f1 f2 _ (log2 ++ [Opened PyPDF2])
               Hpages), Hf2 in Hf1.
    congruence.
  - intros Htexts ->. rewrite Htexts, Hd2 in Hd1. congruence.
Qed.

Lemma stages_do_not_interfere_witness :
  (pdfplumber_pages (file_of_texts report_doc)
   = pdfplumber_pages (file_of_texts plain_doc) ->
   dict_get "format"
     [("format", [("file_type", PStr "pass"); ("font_size", PStr "fail");
                  ("font_family", PStr "fail"); ("margin", PStr "fail")]);
      ("content", [("executive_summary_pages", PInt 3);
                   ("executive_summary", PStr "n/a")])] =
   dict_get "format"
     [("format", [("file_type", PStr "pass"); ("font_size", PStr "fail");
                  ("font_family", PStr "fail"); ("margin", PStr "fail")]);
      ("content", [])]) /\
  (fitz_texts (file_of_texts report_doc) = fitz_texts (file_of_texts plain_doc)
   -> Some report_template = example_limits ->
   dict_get "content"
     [("format", [("file_type", PStr "pass"); ("font_size", PStr "fail");
                  ("font_family", PStr "fail"); ("margin", PStr "fail")]);
      ("content", [("executive_summary_pages", PInt 3);
                   ("executive_summary", PStr "n/a")])] =
   dict_get "content"
     [("format", [("file_type", PStr "pass"); ("font_size", PStr "fail");
                  ("font_family", PStr "fail"); ("margin", PStr "fail")]);
      ("content", [])]).
Proof.
  exact (stages_do_not_interfere (file_of_texts report_doc)
           (file_of_texts plain_doc) (Some report_template) example_limits
           [] [] _ _ eq_refl eq_refl eq_refl eq_refl).
Defined.

(** * The status of a section in the returned mapping *)





